(** * Turnstile: error taxonomy, server pipeline composition and the
      reference signing client.

    A shallow embedding of [lib/errors.js], [bin/server], [bin/tester]
    and the documented configuration defaults, with the properties the
    specification states about them. *)

From Stdlib Require Import ZArith Lia Ascii String List.
From stdpp Require Import gmap strings list fin_maps pretty.

Local Open Scope string_scope.
Local Open Scope Z_scope.

(** ** JavaScript values and the coercions the sources rely on *)

Module JS.

(** Numbers.  Status codes, header lengths and time values are integral;
    [NaN] is what [Number()] yields on anything it cannot read.  Other
    doubles do not occur in the code under study. *)
Inductive jsnum : Type :=
| NaN
| Int (z : Z).

(** Values.  An object is the list of its properties in enumeration
    order; strings are sequences of 8-bit code units. *)
#[warnings="-register-all"]
Inductive jsval : Type :=
| VUndefined
| VNull
| VBool (b : bool)
| VNum (n : jsnum)
| VStr (s : string)
| VObj (props : list (string * jsval)).

Definition num (z : Z) : jsval := VNum (Int z).

(** [ToBoolean]: the truthiness test behind [||], [if] and [?:]. *)
Definition ToBoolean (v : jsval) : bool :=
  match v with
  | VUndefined | VNull => false
  | VBool b => b
  | VNum NaN => false
  | VNum (Int z) => negb (z =? 0)
  | VStr s => negb (String.eqb s "")
  | VObj _ => true
  end.

(** [a || b] *)
Definition or_else (a b : jsval) : jsval :=
  if ToBoolean a then a else b.

(** Character classes. *)
Definition code_unit (a : ascii) : Z := Z.of_N (N_of_ascii a).

Definition is_digit (a : ascii) : bool :=
  (48 <=? code_unit a) && (code_unit a <=? 57).

Definition is_upper (a : ascii) : bool :=
  (65 <=? code_unit a) && (code_unit a <=? 90).

Definition is_lower (a : ascii) : bool :=
  (97 <=? code_unit a) && (code_unit a <=? 122).

(** A string of decimal digits read as an integer; [Number('')] is 0. *)
Fixpoint digits_value (acc : Z) (s : string) : option Z :=
  match s with
  | EmptyString => Some acc
  | String a rest =>
      if is_digit a then digits_value (10 * acc + (code_unit a - 48)) rest
      else None
  end.

Section Coercions.

(** [Number()] on the strings that are not plain digit sequences (signed,
    fractional, hexadecimal, space-padded, or not numeric at all), and on
    objects, is left to the host. *)
Variable StringToNumber : string -> jsnum.
Variable ObjectToNumber : list (string * jsval) -> jsnum.

Definition Number (v : jsval) : jsnum :=
  match v with
  | VUndefined => NaN
  | VNull => Int 0
  | VBool b => Int (if b then 1 else 0)
  | VNum n => n
  | VStr s =>
      match digits_value 0 s with
      | Some z => Int z
      | None => StringToNumber s
      end
  | VObj props => ObjectToNumber props
  end.

End Coercions.

(** [String()] and property-key conversion. *)
Definition NumberToString (n : jsnum) : string :=
  match n with
  | NaN => "NaN"
  | Int z => pretty z
  end.

Definition ToString (v : jsval) : string :=
  match v with
  | VUndefined => "undefined"
  | VNull => "null"
  | VBool true => "true"
  | VBool false => "false"
  | VNum n => NumberToString n
  | VStr s => s
  | VObj _ => "[object Object]"
  end.

(** [s.toUpperCase()] on the code units it is applied to in the sources,
    the characters [a-zA-Z0-9_] left by the replacement: only the letters
    a to z move. *)
Definition upper_unit (a : ascii) : ascii :=
  if is_lower a then ascii_of_N (N_of_ascii a - 32) else a.

Fixpoint toUpperCase (s : string) : string :=
  match s with
  | EmptyString => EmptyString
  | String a rest => String (upper_unit a) (toUpperCase rest)
  end.

(** [s.toLowerCase()] on 8-bit code units: the letters A to Z and the
    capitals of the upper half, U+00C0 to U+00DE without the
    multiplication sign, move down by 32. *)
Definition is_upper_latin1 (a : ascii) : bool :=
  (192 <=? code_unit a) && (code_unit a <=? 222) && negb (code_unit a =? 215).

Definition lower_unit (a : ascii) : ascii :=
  if is_upper a || is_upper_latin1 a then ascii_of_N (N_of_ascii a + 32) else a.

Fixpoint toLowerCase (s : string) : string :=
  match s with
  | EmptyString => EmptyString
  | String a rest => String (lower_unit a) (toLowerCase rest)
  end.

(** [s.replace(/[^...]/g, r)] for a character class given by [keep]. *)
Fixpoint replace_rejected (keep : ascii -> bool) (r : string) (s : string) : string :=
  match s with
  | EmptyString => EmptyString
  | String a rest =>
      (if keep a then String a EmptyString else r)
        +:+ replace_rejected keep r rest
  end.

(** Own-property lookup in an object literal. *)
Fixpoint assoc (k : string) (props : list (string * jsval)) : option jsval :=
  match props with
  | [] => None
  | (k', v) :: rest => if String.eqb k k' then Some v else assoc k rest
  end.

(** [o.k]: a [TypeError] (here [None]) on [undefined] and [null], and
    [undefined] when the property is missing.  The sources only read
    [code] and [message], which no primitive wrapper defines. *)
Definition get_prop (o : jsval) (k : string) : option jsval :=
  match o with
  | VUndefined | VNull => None
  | VObj props => Some (default VUndefined (assoc k props))
  | _ => Some VUndefined
  end.

(** [o[k] = v] on an object literal: an existing key keeps its place. *)
Fixpoint set_prop (k : string) (v : jsval) (props : list (string * jsval))
  : list (string * jsval) :=
  match props with
  | [] => [(k, v)]
  | (k', v') :: rest =>
      if String.eqb k k' then (k, v) :: rest else (k', v') :: set_prop k v rest
  end.

(** The own enumerable properties a value contributes to [Object.assign]. *)
Fixpoint string_units (i : nat) (s : string) : list (string * jsval) :=
  match s with
  | EmptyString => []
  | String a rest => (pretty i, VStr (String a EmptyString)) :: string_units (S i) rest
  end.

Definition own_props (v : jsval) : list (string * jsval) :=
  match v with
  | VObj props => props
  | VStr s => string_units 0 s
  | _ => []
  end.

(** [Object.assign(target, source)] *)
Definition Object_assign (target : list (string * jsval)) (source : jsval)
  : list (string * jsval) :=
  fold_left (fun acc kv => set_prop (fst kv) (snd kv) acc) (own_props source) target.

(** [s.includes(a)] for a single character. *)
Fixpoint includes (a : ascii) (s : string) : bool :=
  match s with
  | EmptyString => false
  | String b rest => Ascii.eqb a b || includes a rest
  end.

(** [Buffer(s, 'utf8')]: the bytes of a string of 8-bit code units. *)
Definition utf8_unit (a : ascii) : string :=
  let u := N_of_ascii a in
  if (u <? 128)%N then String a EmptyString
  else String (ascii_of_N (N.lor 192 (N.shiftr u 6)))
         (String (ascii_of_N (N.lor 128 (N.land u 63))) EmptyString).

Fixpoint utf8 (s : string) : string :=
  match s with
  | EmptyString => EmptyString
  | String a rest => utf8_unit a +:+ utf8 rest
  end.

(** [buf.toString('base64')] *)
Definition base64_alphabet : string :=
  "ABCDEFGHIJKLMNOPQRSTUVWXYZabcdefghijklmnopqrstuvwxyz0123456789+/".

Definition base64_digit (n : N) : ascii :=
  match String.get (N.to_nat n) base64_alphabet with
  | Some a => a
  | None => "="%char
  end.

Fixpoint base64 (bytes : string) : string :=
  match bytes with
  | EmptyString => EmptyString
  | String a EmptyString =>
      let x := N_of_ascii a in
      String (base64_digit (N.shiftr x 2))
        (String (base64_digit (N.shiftl (N.land x 3) 4)) "==")
  | String a (String b EmptyString) =>
      let x := N_of_ascii a in
      let y := N_of_ascii b in
      String (base64_digit (N.shiftr x 2))
        (String (base64_digit (N.lor (N.shiftl (N.land x 3) 4) (N.shiftr y 4)))
           (String (base64_digit (N.shiftl (N.land y 15) 2)) "="))
  | String a (String b (String c rest)) =>
      let x := N_of_ascii a in
      let y := N_of_ascii b in
      let z := N_of_ascii c in
      String (base64_digit (N.shiftr x 2))
        (String (base64_digit (N.lor (N.shiftl (N.land x 3) 4) (N.shiftr y 4)))
           (String (base64_digit (N.lor (N.shiftl (N.land y 15) 2) (N.shiftr z 6)))
              (String (base64_digit (N.land z 63)) (base64 rest))))
  end.

End JS.

(** ** [lib/errors.js] *)

Module Errors.
Import JS.

(** The table [require('http').STATUS_CODES] of the Node runtime, listed
    in the order in which [Object.keys] enumerates its integer keys. *)
Definition http_STATUS_CODES : list (Z * string) :=
  [ (100, "Continue"); (101, "Switching Protocols"); (102, "Processing");
    (103, "Early Hints");
    (200, "OK"); (201, "Created"); (202, "Accepted");
    (203, "Non-Authoritative Information"); (204, "No Content");
    (205, "Reset Content"); (206, "Partial Content"); (207, "Multi-Status");
    (208, "Already Reported"); (226, "IM Used");
    (300, "Multiple Choices"); (301, "Moved Permanently"); (302, "Found");
    (303, "See Other"); (304, "Not Modified"); (305, "Use Proxy");
    (307, "Temporary Redirect"); (308, "Permanent Redirect");
    (400, "Bad Request"); (401, "Unauthorized"); (402, "Payment Required");
    (403, "Forbidden"); (404, "Not Found"); (405, "Method Not Allowed");
    (406, "Not Acceptable"); (407, "Proxy Authentication Required");
    (408, "Request Timeout"); (409, "Conflict"); (410, "Gone");
    (411, "Length Required"); (412, "Precondition Failed");
    (413, "Payload Too Large"); (414, "URI Too Long");
    (415, "Unsupported Media Type"); (416, "Range Not Satisfiable");
    (417, "Expectation Failed"); (418, "I'm a Teapot");
    (421, "Misdirected Request"); (422, "Unprocessable Entity");
    (423, "Locked"); (424, "Failed Dependency"); (425, "Too Early");
    (426, "Upgrade Required"); (428, "Precondition Required");
    (429, "Too Many Requests"); (431, "Request Header Fields Too Large");
    (451, "Unavailable For Legal Reasons");
    (500, "Internal Server Error"); (501, "Not Implemented");
    (502, "Bad Gateway"); (503, "Service Unavailable");
    (504, "Gateway Timeout"); (505, "HTTP Version Not Supported");
    (506, "Variant Also Negotiates"); (507, "Insufficient Storage");
    (508, "Loop Detected"); (509, "Bandwidth Limit Exceeded");
    (510, "Not Extended"); (511, "Network Authentication Required") ].

(** [M_REJECT_CHARS = /[^a-zA-Z0-9_]/g]: the characters it leaves alone. *)
Definition M_REJECT_CHARS_keeps (a : ascii) : bool :=
  is_lower a || is_upper a || is_digit a || (code_unit a =? 95).

Definition NOTHING : string := "".

(** [message.replace(M_REJECT_CHARS, '_').toUpperCase()] *)
Definition reverse_name (message : string) : string :=
  toUpperCase (replace_rejected M_REJECT_CHARS_keeps "_" message).

(** [STATUS_CODES[k]], [undefined] when the key is missing. *)
Definition table_get (tbl : gmap string jsval) (k : string) : jsval :=
  default VUndefined (tbl !! k).

Section Loading.

Variable StringToNumber : string -> jsnum.
Variable ObjectToNumber : list (string * jsval) -> jsnum.
Abbreviation Number := (JS.Number StringToNumber ObjectToNumber).

(** [Object.assign({}, require('http').STATUS_CODES)] *)
Definition copy_of (tbl : list (Z * string)) : gmap string jsval :=
  list_to_map (map (fun cp => (pretty (fst cp), VStr (snd cp))) tbl).

(** [Object.keys(STATUS_CODES)], taken before the loop runs. *)
Definition keys_of (tbl : list (Z * string)) : list string :=
  map (fun cp => pretty (fst cp)) tbl.

(** One turn of the [forEach] callback; [message.replace] throws when the
    entry is not a string. *)
Definition reverse_map (acc : option (gmap string jsval)) (code : string)
  : option (gmap string jsval) :=
  match acc with
  | None => None
  | Some STATUS =>
      match table_get STATUS code with
      | VStr message =>
          Some (<[reverse_name message := VNum (Number (VStr code))]> STATUS)
      | _ => None
      end
  end.

Definition load (tbl : list (Z * string)) : option (gmap string jsval) :=
  fold_left reverse_map (keys_of tbl) (Some (copy_of tbl)).

(** The module-level constant once the file has been evaluated. *)
Definition STATUS_CODES : gmap string jsval :=
  default ∅ (load http_STATUS_CODES).

(** [STATUS_CODES.INTERNAL_SERVER_ERROR] and its siblings. *)
Definition INTERNAL_SERVER_ERROR : jsval := table_get STATUS_CODES "INTERNAL_SERVER_ERROR".
Definition BAD_REQUEST : jsval := table_get STATUS_CODES "BAD_REQUEST".
Definition UNAUTHORIZED : jsval := table_get STATUS_CODES "UNAUTHORIZED".
Definition NOT_FOUND : jsval := table_get STATUS_CODES "NOT_FOUND".

(** The classes of the module. *)
Inductive class : Type :=
| HTTPError_class
| RequestError_class
| AuthorizationError_class
| NotFoundError_class.

Definition class_name (c : class) : string :=
  match c with
  | HTTPError_class => "HTTPError"
  | RequestError_class => "RequestError"
  | AuthorizationError_class => "AuthorizationError"
  | NotFoundError_class => "NotFoundError"
  end.

(** [module.exports] is [HTTPError] itself, carrying its subclasses. *)
Definition exports : list (string * class) :=
  [ ("RequestError", RequestError_class);
    ("AuthorizationError", AuthorizationError_class);
    ("NotFoundError", NotFoundError_class) ].

(** An instance: the fields the constructor assigns, and the trace that
    [Error] records on construction. *)
Record HTTPError : Type := mkHTTPError {
  cls : class;
  code : jsval;
  name : string;
  message : jsval;
  metadata : jsval;
  stack : string
}.

(** [new HTTPError(code, message, metadata)], with [trace] the call stack
    at that point.  [None] is the [TypeError] of calling [replace] on
    something that is not a string. *)
Definition construct (c : class) (trace : string) (code message metadata : jsval)
  : option HTTPError :=
  let this_code := or_else (VNum (Number code)) INTERNAL_SERVER_ERROR in
  match table_get STATUS_CODES (ToString this_code) with
  | VStr phrase =>
      Some {| cls := c;
              code := this_code;
              name := replace_rejected M_REJECT_CHARS_keeps NOTHING phrase;
              message := or_else message (table_get STATUS_CODES (ToString this_code));
              metadata := or_else metadata (VObj []);
              stack := trace |}
  | _ => None
  end.

Definition new_HTTPError := construct HTTPError_class.

Definition new_RequestError (trace : string) (reason metadata : jsval) : option HTTPError :=
  construct RequestError_class trace BAD_REQUEST reason metadata.

Definition new_AuthorizationError (trace : string) (reason metadata : jsval)
  : option HTTPError :=
  construct AuthorizationError_class trace UNAUTHORIZED reason metadata.

Definition new_NotFoundError (trace : string) (method path : string) (metadata : jsval)
  : option HTTPError :=
  construct NotFoundError_class trace NOT_FOUND
    (VStr (method +:+ " " +:+ path))
    (VObj (Object_assign [("method", VStr method); ("path", VStr path)] metadata)).

(** [toJSON()] *)
Definition toJSON (e : HTTPError) : jsval :=
  VObj [ ("code", code e); ("name", VStr (name e));
         ("message", message e); ("metadata", metadata e) ].

(** What the calls made on an [HTTP.ServerResponse] leave on it: the
    headers set, the status of the head written, the chunks handed to
    [write] and whether [end] was called. *)
Record ServerResponse : Type := mkServerResponse {
  headers : list (string * jsval);
  statusCode : jsval;
  chunks : list string;
  ended : bool
}.

Definition fresh_response : ServerResponse :=
  {| headers := []; statusCode := VUndefined; chunks := []; ended := false |}.

Definition setHeader (header : string) (value : jsval) (res : ServerResponse)
  : ServerResponse :=
  {| headers := set_prop (toLowerCase header) value (headers res);
     statusCode := statusCode res; chunks := chunks res; ended := ended res |}.

Definition writeHead (status : jsval) (res : ServerResponse) : ServerResponse :=
  {| headers := headers res; statusCode := status;
     chunks := chunks res; ended := ended res |}.

Definition write (chunk : string) (res : ServerResponse) : ServerResponse :=
  {| headers := headers res; statusCode := statusCode res;
     chunks := chunks res ++ [chunk]; ended := ended res |}.

Definition end_ (res : ServerResponse) : ServerResponse :=
  {| headers := headers res; statusCode := statusCode res;
     chunks := chunks res; ended := true |}.

Definition body (res : ServerResponse) : string :=
  fold_right String.append "" (chunks res).

(** The runtime accepts [setHeader] and [writeHead] only while nothing
    has been sent: no head written yet, no chunk, not ended; on such a
    response the record above is what the runtime holds.  The statuses
    below are the ones the runtime sends without a body, whatever is
    written. *)
Definition not_started (res : ServerResponse) : Prop :=
  statusCode res = VUndefined /\ chunks res = [] /\ ended res = false.

Definition bodiless (status : jsval) : bool :=
  match status with
  | VNum (Int c) => ((100 <=? c) && (c <=? 199)) || (c =? 204) || (c =? 304)
  | _ => false
  end.

(** What reaches [HTTPError.handler]: an instance of the class (or of a
    subclass), or any other value. *)
Inductive thrown : Type :=
| Instance (e : HTTPError)
| Foreign (v : jsval).

(** [JSON.stringify(value, null, 2)] of the host. *)
Variable JSON_stringify : jsval -> string.

(** [HTTPError.handler(err, req, res)], first half: an error that is not
    an instance is wrapped in one, from its [code] and [message]. *)
Definition wrap (trace : string) (err : thrown) : option HTTPError :=
  match err with
  | Instance e => Some e
  | Foreign v =>
      c ← get_prop v "code";
      m ← get_prop v "message";
      new_HTTPError trace (or_else c INTERNAL_SERVER_ERROR) m VUndefined
  end.

(** Second half: the error is serialised and sent. *)
Definition render (err : HTTPError) (res : ServerResponse) : ServerResponse :=
  let content := utf8 (JSON_stringify (toJSON err)) in
  let res := setHeader "Content-Type" (VStr "application/json") res in
  let res := setHeader "Content-Length" (num (Z.of_nat (String.length content))) res in
  let res := writeHead (or_else (code err) INTERNAL_SERVER_ERROR) res in
  let res := write content res in
  end_ res.

(** The handler.  The request is not read, and the final [Log.debug]
    leaves the response alone. *)
Definition handler (trace : string) (err : thrown) (res : ServerResponse)
  : option ServerResponse :=
  err ← wrap trace err; Some (render err res).

(** Vocabulary for the reverse mapping: what one turn adds, and the
    conditions on a table under which no turn disturbs another. *)
Definition add_name (STATUS : gmap string jsval) (cp : Z * string)
  : gmap string jsval :=
  <[reverse_name (snd cp) := num (fst cp)]> STATUS.

Definition numeric_keys (tbl : list (Z * string)) : Prop :=
  Forall (fun cp => digits_value 0 (pretty (fst cp)) = Some (fst cp)) tbl.

Definition names_of (tbl : list (Z * string)) : list string :=
  map (fun cp => reverse_name (snd cp)) tbl.

Definition names_off_keys (tbl : list (Z * string)) : Prop :=
  Forall (fun n => n ∉ keys_of tbl) (names_of tbl).

End Loading.

End Errors.

(** ** The configuration store and its documented defaults *)

Module Config.
Import JS.

(** Splitting a key such as [correlation:enable] at the colons. *)
Fixpoint split_key (current : string) (key : string) : list string :=
  match key with
  | EmptyString => [current]
  | String a rest =>
      if Ascii.eqb a ":" then current :: split_key "" rest
      else split_key (current +:+ String a EmptyString) rest
  end.

(** Walking down one level; anything that is not an object holding the
    key ends the lookup with [undefined]. *)
Definition descend (target : jsval) (k : string) : jsval :=
  match target with
  | VObj props => default VUndefined (assoc k props)
  | _ => VUndefined
  end.

(** [Config.get(key)] over the merged store. *)
Definition get (store : jsval) (key : string) : jsval :=
  fold_left descend (split_key "" key) store.

(** The supported parameters and their defaults, as the configuration
    page lists them. *)
Definition defaults : jsval :=
  VObj
    [ ("listen", VObj [ ("port", num 9300); ("bind", VStr "0.0.0.0") ]);
      ("log", VObj [ ("level", VStr "info") ]);
      ("correlation",
        VObj [ ("enable", VBool true); ("header", VStr "X-Request-Identifier") ]);
      ("local",
        VObj [ ("db", VObj [ ("path", VStr "data/keys.json");
                             ("signal", VStr "SIGHUP") ]);
               ("algorithm", VStr "sha256");
               ("skew", num 1000) ]);
      ("service", VObj [ ("port", num 9301); ("hostname", VStr "localhost") ]) ].

(** [Object.keys] of an object. *)
Definition keys (v : jsval) : list string :=
  match v with
  | VObj props => map fst props
  | _ => []
  end.

End Config.

(** ** [bin/server] *)

Module Server.
Import JS.

(** The control layers the script builds, each from its own part of the
    configuration. *)
Inductive layer : Type :=
| Correlation (options : jsval)
| Authentication (options : jsval)
| Forwarding (options : jsval).

Inductive kind : Type := CorrelationStage | AuthenticationStage | ForwardingStage.

Definition kind_of (l : layer) : kind :=
  match l with
  | Correlation _ => CorrelationStage
  | Authentication _ => AuthenticationStage
  | Forwarding _ => ForwardingStage
  end.

(** The application is the sequence of layers registered so far;
    [app.use(l)] registers one more. *)
Definition create : list layer := [].

Definition use (l : layer) (app : list layer) : list layer := app ++ [l].

Record listening : Type := mkListening {
  app : list layer;
  port : jsval;
  bind : jsval
}.

(** The script, top to bottom. *)
Definition main (store : jsval) : listening :=
  let app := create in
  let app :=
    if ToBoolean (Config.get store "correlation:enable")
    then use (Correlation (Config.get store "correlation")) app
    else app in
  let app := use (Authentication (Config.get store "local")) app in
  let app := use (Forwarding (Config.get store "service")) app in
  {| app := app;
     port := Config.get store "listen:port";
     bind := Config.get store "listen:bind" |}.

End Server.

(** ** [bin/tester], the reference client *)

Module Tester.
Import JS.

(** Time values are milliseconds since the epoch; the arithmetic of
    [Date.prototype.setMilliseconds] follows the language definition for
    time values in the representable range. *)
Definition msPerSecond : Z := 1000.
Definition msPerMinute : Z := 60000.
Definition msPerHour : Z := 3600000.
Definition msPerDay : Z := 86400000.

Definition Day (t : Z) : Z := t / msPerDay.
Definition HourFromTime (t : Z) : Z := (t / msPerHour) mod 24.
Definition MinFromTime (t : Z) : Z := (t / msPerMinute) mod 60.
Definition SecFromTime (t : Z) : Z := (t / msPerSecond) mod 60.
Definition msFromTime (t : Z) : Z := t mod msPerSecond.

Definition MakeTime (hour min sec ms : Z) : Z :=
  hour * msPerHour + min * msPerMinute + sec * msPerSecond + ms.

Definition MakeDate (day time : Z) : Z := day * msPerDay + time.

(** Command-line options read through [Config.get]. *)
Record options : Type := mkOptions {
  opt_method : string;
  opt_payload : jsval;
  opt_digest : string;
  opt_identity : string;
  opt_secret : string
}.

(** What [URL.parse] returned for the target. *)
Record parsed_url : Type := mkParsedUrl {
  url_protocol : jsval;
  url_slashes : jsval;
  url_auth : jsval;
  url_host : jsval;
  url_port : jsval;
  url_hostname : jsval;
  url_hash : jsval;
  url_search : jsval;
  url_query : jsval;
  url_pathname : jsval;
  url_path : jsval;
  url_href : jsval
}.

(** The request body: [false], or a [Buffer]. *)
Inductive payload : Type :=
| NoPayload
| Buffer (bytes : string).

(** A [Buffer] is an object, hence truthy even when it is empty. *)
Definition payload_given (p : payload) : bool :=
  match p with
  | NoPayload => false
  | Buffer _ => true
  end.

Definition payload_bytes (p : payload) : string :=
  match p with
  | NoPayload => ""
  | Buffer bytes => bytes
  end.

(** The request parameters: what is left of the parsed URL after the
    [delete]s, and the properties the script adds. *)
Record params : Type := mkParams {
  slashes : jsval;
  port : jsval;
  hostname : jsval;
  path : jsval;
  method : string;
  headers : list (string * jsval);
  date : Z;
  identity : string;
  body : payload
}.

Definition set_header (k : string) (v : jsval) (p : params) : params :=
  {| slashes := slashes p; port := port p; hostname := hostname p; path := path p;
     method := method p; headers := set_prop k v (headers p);
     date := date p; identity := identity p; body := body p |}.

Definition set_payload (b : payload) (p : params) : params :=
  {| slashes := slashes p; port := port p; hostname := hostname p; path := path p;
     method := method p; headers := headers p;
     date := date p; identity := identity p; body := b |}.

(** A [Crypto.createHash] object: the function of its algorithm and the
    input absorbed so far. *)
Record hash : Type := mkHash {
  hash_fn : string -> string;
  absorbed : string
}.

Definition update (data : string) (h : hash) : hash :=
  {| hash_fn := hash_fn h; absorbed := absorbed h +:+ data |}.

Definition digest_base64 (h : hash) : string := base64 (hash_fn h (absorbed h)).

(** What the client puts on the wire. *)
Record outgoing : Type := mkOutgoing {
  sent : params;
  content_length : Z;
  written : option string
}.

(** What the script leaves outside the process, and how a promise ends. *)
Record world : Type := mkWorld {
  stdout : list string;
  files : list (jsval * string);
  info : list string
}.

Inductive settlement : Type :=
| Resolved
| Rejected
| Pending.

Section Client.

(** The host: local time zone, date formatting, runtime version, standard
    input, the file system and the hash functions by name.  [LocalTZA t
    true] is the zone's offset at the instant [t]; [LocalTZA t false] is
    the offset the host applies to the local time [t], which at a repeated
    or skipped local hour is, by the language definition, the offset in
    force before the transition. *)
Variable LocalTZA : Z -> bool -> Z.
Variable Date_toString : Z -> string.
Variable process_version : string.
Variable stdin : string.
Variable readFile : string -> option string.
Variable Crypto_hash : string -> option (string -> string).

(** [new Signature(algorithm, params)] followed by [sign(secret)]: the
    value of its [signature] property. *)
Variable Signature_sign : string -> params -> string -> string.

Definition LocalTime (t : Z) : Z := t + LocalTZA t true.
Definition UTC (t : Z) : Z := t - LocalTZA t false.

(** [d.setMilliseconds(ms)] on a date holding [t]. *)
Definition setMilliseconds (t ms : Z) : Z :=
  let l := LocalTime t in
  let time := MakeTime (HourFromTime l) (MinFromTime l) (SecFromTime l) ms in
  UTC (MakeDate (Day l) time).

(** The clock readings at which clearing the milliseconds stays within
    one zone offset: the offset at [t] is a whole number of seconds, and
    the host converts the cleared local time back with that same
    offset. *)
Definition unambiguous (t : Z) : Prop :=
  LocalTZA t true mod 1000 = 0 /\
  LocalTZA (1000 * (LocalTime t / 1000)) false = LocalTZA t true.

(** [read(payload)]; [None] is a rejected promise. *)
Definition read (p : jsval) : option payload :=
  match p with
  | VStr (String "-" _) => Some (Buffer stdin)
  | VStr (String "@" file) => Buffer <$> readFile file
  | VStr s => Some (Buffer (utf8 s))
  | _ => Some NoPayload
  end.

Definition createHash (algorithm : string) : option hash :=
  f ← Crypto_hash algorithm; Some {| hash_fn := f; absorbed := "" |}.

(** [digest(algorithm, payload)] *)
Definition digest (algorithm : string) (p : payload) : option string :=
  h ← createHash algorithm;
  let h := if payload_given p then update (payload_bytes p) h else h in
  Some (digest_base64 h).

(** The steps of [request(protocol, params)], one per [then]. *)
Definition with_digest (algorithm signature : string) (p : params) : params :=
  set_header "digest" (VStr (algorithm +:+ "=" +:+ signature)) p.

Definition authorize (secret : string) (p : params) : params :=
  let signature := Signature_sign "sha256" p secret in
  let authorization := base64 (utf8 (identity p +:+ ":" +:+ signature)) in
  set_header "authorization" (VStr ("Rapid7-HMAC-V1-SHA256 " +:+ authorization)) p.

Definition send (p : params) : outgoing :=
  {| sent := p;
     content_length :=
       if payload_given (body p)
       then Z.of_nat (String.length (payload_bytes (body p))) else 0;
     written :=
       if payload_given (body p) then Some (payload_bytes (body p)) else None |}.

(** [request(protocol, params)] up to the point where the request has
    been written out; [None] is a rejected promise. *)
Definition request (opts : options) (p : params) : option outgoing :=
  let algorithm := opt_digest opts in
  b ← read (opt_payload opts);
  let p := set_payload b p in
  signature ← digest algorithm b;
  let p := with_digest algorithm signature p in
  let p := authorize (opt_secret opts) p in
  Some (send p).

(** The parameters the script prepares before calling [request], with
    [now] the value of [new Date()]. *)
Definition prepare (now : Z) (url : parsed_url) (opts : options) : params :=
  {| slashes := url_slashes url;
     port := url_port url;
     hostname := url_hostname url;
     path := url_path url;
     method := opt_method opts;
     headers :=
       [ ("date", VStr (Date_toString now));
         ("host", url_host url);
         ("user-agent", VStr ("node-" +:+ process_version +:+ "/turnstile-tester")) ];
     date := setMilliseconds now 0;
     identity := opt_identity opts;
     body := NoPayload |}.

Definition main (now : Z) (url : parsed_url) (opts : options) : option outgoing :=
  request opts (prepare now url opts).

(** The last step of the script: what becomes of the response payload.
    [FS.writeFile] succeeds or fails as the host decides. *)
Variable writeFile : jsval -> string -> bool.

Definition deliver (output : jsval) (received : string) (w : world)
  : world * settlement :=
  if negb (ToBoolean output) then
    ({| stdout := stdout w ++ [received]; files := files w; info := info w |},
     Resolved)
  else if (0 <? Z.of_nat (String.length received)) then
    if writeFile output received then
      ({| stdout := stdout w;
          files := files w ++ [(output, received)];
          info := info w ++ ["Wrote " +:+ pretty (String.length received)
                             +:+ " bytes to " +:+ ToString output] |},
       Resolved)
    else (w, Rejected)
  else (w, Pending).

End Client.

End Tester.

(** ** The testing stubs for requests, responses and the upstream server *)

Module Stub.
Import JS.

(** The stub of [HTTP.ServerResponse]. *)
Record ServerResponse : Type := mkServerResponse {
  headers : jsval;
  statusCode : jsval;
  statusMessage : jsval;
  chunks : list string;
  ended : bool;
  body : option string;
  handled : nat
}.

(** [new ServerResponse(handler)]; [handled] counts the calls of the
    handler. *)
Definition new_ServerResponse : ServerResponse :=
  {| headers := VObj []; statusCode := VUndefined; statusMessage := VUndefined;
     chunks := []; ended := false; body := None; handled := 0 |}.

(** [setHeader(name, value)]; assigning a property on anything but an
    object is a [TypeError] in strict mode. *)
Definition setHeader (header : string) (value : jsval) (res : ServerResponse)
  : option ServerResponse :=
  match headers res with
  | VObj props =>
      Some {| headers := VObj (set_prop (toLowerCase header) value props);
              statusCode := statusCode res; statusMessage := statusMessage res;
              chunks := chunks res; ended := ended res; body := body res;
              handled := handled res |}
  | _ => None
  end.

(** [writeHead(code, status, headers)] *)
Definition writeHead (code status hdrs : jsval) (res : ServerResponse)
  : ServerResponse :=
  {| headers := if ToBoolean hdrs then hdrs else headers res;
     statusCode := code;
     statusMessage := if ToBoolean status then status else statusMessage res;
     chunks := chunks res; ended := ended res; body := body res;
     handled := handled res |}.

(** [write(chunk)] with a buffer. *)
Definition write (chunk : string) (res : ServerResponse) : ServerResponse :=
  {| headers := headers res; statusCode := statusCode res;
     statusMessage := statusMessage res;
     chunks := chunks res ++ [chunk]; ended := ended res; body := body res;
     handled := handled res |}.

(** A stub response and a response of the runtime that show the same
    headers, status, chunks and end. *)
Definition agrees (s : ServerResponse) (r : Errors.ServerResponse) : Prop :=
  headers s = VObj (Errors.headers r) /\
  statusCode s = Errors.statusCode r /\
  chunks s = Errors.chunks r /\
  ended s = Errors.ended r.

Section Stubs.

(** [buf.toString('utf8')], and [Buffer.byteLength] on what is not a
    string, are the host's. *)
Variable utf8_decode : string -> string.
Variable byteLength_other : jsval -> option jsval.

Definition byteLength (v : jsval) : option jsval :=
  match v with
  | VStr s => Some (num (Z.of_nat (String.length (utf8 s))))
  | _ => byteLength_other v
  end.

(** [end(chunk)], the chunk being optional. *)
Definition end_ (chunk : option string) (res : ServerResponse) : ServerResponse :=
  let chunks := match chunk with
                | Some c => (chunks res ++ [c])%list
                | None => chunks res
                end in
  {| headers := headers res; statusCode := statusCode res;
     statusMessage := statusMessage res;
     chunks := chunks; ended := true;
     body := Some (utf8_decode (fold_right String.append "" chunks));
     handled := S (handled res) |}.

(** [new IncomingMessage(request)]: the properties copied onto the
    stream. *)
Definition IncomingMessage (request : jsval) : option (list (string * jsval)) :=
  let request :=
    Object_assign [ ("method", VStr "GET"); ("url", VStr "/default/test/path") ]
      request in
  len ← byteLength (default VUndefined (assoc "body" request));
  let derived :=
    VObj [ ("content-type", default VUndefined (assoc "type" request));
           ("content-length", len) ] in
  let hdrs :=
    Object_assign (Object_assign [] derived)
      (default VUndefined (assoc "headers" request)) in
  Some (set_prop "headers" (VObj hdrs) request).

(** [HTTPError.handler]'s calls on a response, as the stub receives
    them. *)
Definition rendered_on (status : jsval) (content : string) (res : ServerResponse)
  : option ServerResponse :=
  res ← setHeader "Content-Type" (VStr "application/json") res;
  res ← setHeader "Content-Length" (num (Z.of_nat (String.length content))) res;
  let res := writeHead status VUndefined VUndefined res in
  let res := write content res in
  Some (end_ None res).

(** The stub upstream server.  A request as its listener sees it. *)
Record request : Type := mkRequest {
  req_method : string;
  req_url : string;
  req_headers : list (string * jsval);
  req_body : option string
}.

Definition listener : Type :=
  request -> Errors.ServerResponse -> option Errors.ServerResponse.

(** What [server.handle] is given. *)
Inductive handler : Type :=
| IsFunction (f : listener)
| IsFixture (fixture : jsval)
| IsOther (v : jsval).

(** The listener made from a fixture: its assertions and its reply. *)
Variable fixture_listener : string -> jsval -> listener.

(** [server.handle(handler)], with the random bytes in hexadecimal. *)
Definition handle (random : string) (h : handler) (handlers : gmap string listener)
  : string * gmap string listener :=
  let path := "/" +:+ random in
  (path,
   match h with
   | IsFunction f => <[path := f]> handlers
   | IsFixture fixture => <[path := fixture_listener path fixture]> handlers
   | IsOther _ => handlers
   end).

(** [res.writeHead(code, headers)] on the runtime's response. *)
Definition writeHead_with (code : jsval) (hdrs : list (string * jsval))
    (res : Errors.ServerResponse) : Errors.ServerResponse :=
  Errors.writeHead code
    (fold_left (fun r kv => Errors.setHeader (fst kv) (snd kv) r) hdrs res).

(** The listener of the stub server, once the request body has been
    read in [received]. *)
Definition on_request (handlers : gmap string listener) (req : request)
    (received : list string) (res : Errors.ServerResponse)
  : option Errors.ServerResponse :=
  let req := {| req_method := req_method req; req_url := req_url req;
                req_headers := req_headers req;
                req_body :=
                  Some (utf8_decode (fold_right String.append "" received)) |} in
  match handlers !! req_url req with
  | Some h => h req res
  | None =>
      let body := "Not Found" in
      len ← byteLength (VStr body);
      let res := writeHead_with (num 404)
                   [ ("content-type", VStr "text/plain"); ("content-length", len) ]
                   res in
      let res := Errors.write (utf8 body) res in
      Some (Errors.end_ res)
  end.

End Stubs.

End Stub.

(** ** A host to run the model on *)

Module Sample.
Import JS.

Definition StringToNumber (s : string) : jsnum := NaN.
Definition ObjectToNumber (props : list (string * jsval)) : jsnum := NaN.
Definition JSON_stringify (v : jsval) : string := "{}".

(** A zone that is always at UTC, and the zone of Berlin around the end
    of summer time on 25 October 2026, 01:00:00 UTC: two hours ahead
    before, one hour after, a repeated local hour read as summer time. *)
Definition LocalTZA (t : Z) (isUTC : bool) : Z := 0.

Definition end_of_summer_time : Z := 1792890000000.

Definition Berlin_LocalTZA (t : Z) (isUTC : bool) : Z :=
  if isUTC then (if t <? end_of_summer_time then 7200000 else 3600000)
  else (if t <? end_of_summer_time + 7200000 then 7200000 else 3600000).

Definition Date_toString (t : Z) : string := pretty t.
Definition readFile (file : string) : option string := None.
Definition Crypto_hash (algorithm : string) : option (string -> string) :=
  if String.eqb algorithm "sha256" then Some (fun s => "#" +:+ s) else None.
Definition Signature_sign (algorithm : string) (p : Tester.params) (secret : string)
  : string := "sig".

Definition url : Tester.parsed_url :=
  {| Tester.url_protocol := VStr "http:";
     Tester.url_slashes := VBool true;
     Tester.url_auth := VNull;
     Tester.url_host := VStr "localhost:9300";
     Tester.url_port := VStr "9300";
     Tester.url_hostname := VStr "localhost";
     Tester.url_hash := VNull;
     Tester.url_search := VNull;
     Tester.url_query := VNull;
     Tester.url_pathname := VStr "/widgets";
     Tester.url_path := VStr "/widgets";
     Tester.url_href := VStr "http://localhost:9300/widgets" |}.

Definition opts : Tester.options :=
  {| Tester.opt_method := "GET";
     Tester.opt_payload := VBool false;
     Tester.opt_digest := "sha256";
     Tester.opt_identity := "a";
     Tester.opt_secret := "s3cret" |}.

Definition main (now : Z) : option Tester.outgoing :=
  Tester.main LocalTZA Date_toString "v4.4.0" "" readFile Crypto_hash Signature_sign
    now url opts.

(** The request the client sends at time 1234567. *)
Definition signed_at_1234567 : Tester.params :=
  {| Tester.slashes := VBool true;
     Tester.port := VStr "9300";
     Tester.hostname := VStr "localhost";
     Tester.path := VStr "/widgets";
     Tester.method := "GET";
     Tester.headers :=
       [ ("date", VStr "1234567"); ("host", VStr "localhost:9300");
         ("user-agent", VStr "node-v4.4.0/turnstile-tester");
         ("digest", VStr "sha256=Iw==") ];
     Tester.date := 1234000;
     Tester.identity := "a";
     Tester.body := Tester.NoPayload |}.

Definition sent_at_1234567 : Tester.outgoing :=
  {| Tester.sent :=
       Tester.set_header "authorization" (VStr "Rapid7-HMAC-V1-SHA256 YTpzaWc=")
         signed_at_1234567;
     Tester.content_length := 0;
     Tester.written := None |}.

(** The same request with the payload [hello]. *)
Definition opts_hello : Tester.options :=
  {| Tester.opt_method := "POST";
     Tester.opt_payload := VStr "hello";
     Tester.opt_digest := "sha256";
     Tester.opt_identity := "a";
     Tester.opt_secret := "s3cret" |}.

Definition sent_hello : Tester.outgoing :=
  {| Tester.sent :=
       {| Tester.slashes := VBool true;
          Tester.port := VStr "9300";
          Tester.hostname := VStr "localhost";
          Tester.path := VStr "/widgets";
          Tester.method := "POST";
          Tester.headers :=
            [ ("date", VStr "1234567"); ("host", VStr "localhost:9300");
              ("user-agent", VStr "node-v4.4.0/turnstile-tester");
              ("digest", VStr "sha256=I2hlbGxv");
              ("authorization", VStr "Rapid7-HMAC-V1-SHA256 YTpzaWc=") ];
          Tester.date := 1234000;
          Tester.identity := "a";
          Tester.body := Tester.Buffer "hello" |};
     Tester.content_length := 5;
     Tester.written := Some "hello" |}.

End Sample.

(** * Properties *)

Import JS.

Ltac by_computation := by apply (bool_decide_unpack _); vm_compute.

(** ** Strings and object literals *)

(** Lowering is the same on the letters of both halves of the 8-bit
    range, and lowering twice changes nothing more. *)
Lemma toLowerCase_capitals :
  toLowerCase "Content-Type" = "content-type" /\
  toLowerCase (String "201" "-Tag") = String "233" "-tag" /\
  toLowerCase (String "215" (String "223" (String "255" "")))
  = String "215" (String "223" (String "255" "")).
Proof. by vm_compute. Qed.

Lemma lower_unit_idemp (a : ascii) : lower_unit (lower_unit a) = lower_unit a.
Proof. by destruct a as [[] [] [] [] [] [] [] []]. Qed.

Lemma toLowerCase_idemp (s : string) : toLowerCase (toLowerCase s) = toLowerCase s.
Proof.
  induction s as [|a s IH]; [done|]. cbn [toLowerCase].
  by rewrite lower_unit_idemp, IH.
Qed.

Lemma append_nil_r (s : string) : s +:+ "" = s.
Proof.
  induction s as [|a s IH]; [done|].
  change (String a (s +:+ "") = String a s). by rewrite IH.
Qed.

Lemma append_assoc (s1 s2 s3 : string) : (s1 +:+ s2) +:+ s3 = s1 +:+ (s2 +:+ s3).
Proof.
  induction s1 as [|a s1 IH]; [done|].
  change (String a ((s1 +:+ s2) +:+ s3) = String a (s1 +:+ (s2 +:+ s3))).
  by rewrite IH.
Qed.

Lemma eqb_string_refl (k : string) : String.eqb k k = true.
Proof. by apply String.eqb_eq. Qed.

Lemma assoc_set_prop_eq k v props : assoc k (set_prop k v props) = Some v.
Proof.
  induction props as [|[k' v'] props IH]; cbn.
  - by rewrite eqb_string_refl.
  - destruct (String.eqb k k') eqn:Hk; cbn.
    + by rewrite eqb_string_refl.
    + by rewrite Hk.
Qed.

Lemma assoc_set_prop_ne k k' v props :
  k <> k' -> assoc k (set_prop k' v props) = assoc k props.
Proof.
  intros Hne. induction props as [|[k'' v''] props IH]; cbn.
  - apply String.eqb_neq in Hne. by rewrite Hne.
  - destruct (String.eqb k' k'') eqn:Hk; cbn.
    + apply String.eqb_eq in Hk as <-. apply String.eqb_neq in Hne. by rewrite Hne.
    + by rewrite IH.
Qed.

Lemma includes_app a (s1 s2 : string) :
  includes a (s1 +:+ s2) = includes a s1 || includes a s2.
Proof.
  induction s1 as [|b s1 IH]; [done|].
  change (Ascii.eqb a b || includes a (s1 +:+ s2)
          = Ascii.eqb a b || includes a s1 || includes a s2).
  rewrite IH. by destruct (Ascii.eqb a b).
Qed.

(** No base64 digit, and so no base64 text, is a colon. *)
Lemma base64_digit_not_colon n : Ascii.eqb ":" (base64_digit n) = false.
Proof.
  unfold base64_digit. generalize (N.to_nat n) as m. intros m.
  do 64 (destruct m as [|m]; [reflexivity|]). reflexivity.
Qed.

Lemma base64_no_colon bytes : includes ":" (base64 bytes) = false.
Proof.
  assert (forall n s, (String.length s <= n)%nat -> includes ":" (base64 s) = false)
    as Hall; [|by apply (Hall (String.length bytes))].
  induction n as [|n IH]; intros s Hlen.
  - destruct s; [reflexivity|cbn in Hlen; lia].
  - destruct s as [|a [|b [|c rest]]]; [reflexivity|..].
    + cbn [base64 includes]. by rewrite !base64_digit_not_colon.
    + cbn [base64 includes]. by rewrite !base64_digit_not_colon.
    + cbn [base64 includes]. rewrite !base64_digit_not_colon. cbn [orb].
      apply IH. cbn in Hlen. lia.
Qed.

(** ** The status table *)

Section StatusTable.
Import Errors.

Variable StringToNumber : string -> jsnum.
Variable ObjectToNumber : list (string * jsval) -> jsnum.
Abbreviation load := (Errors.load StringToNumber ObjectToNumber).
Abbreviation STATUS_CODES := (Errors.STATUS_CODES StringToNumber ObjectToNumber).

Lemma lookup_add_names_other todo (STATUS : gmap string jsval) k :
  k ∉ names_of todo ->
  fold_left add_name todo STATUS !! k = STATUS !! k.
Proof.
  revert STATUS. induction todo as [|[c p] todo IH]; intros STATUS Hk; [done|].
  cbn in *. apply not_elem_of_cons in Hk as [Hne Hk].
  rewrite IH by done. unfold add_name; cbn. by rewrite lookup_insert_ne.
Qed.

Lemma lookup_add_names_name todo (STATUS : gmap string jsval) c p :
  NoDup (names_of todo) -> (c, p) ∈ todo ->
  fold_left add_name todo STATUS !! reverse_name p = Some (num c).
Proof.
  revert STATUS. induction todo as [|[c' p'] todo IH]; intros STATUS Hnd Hin.
  - by apply elem_of_nil in Hin.
  - cbn in Hnd. apply NoDup_cons in Hnd as [Hfresh Hnd].
    apply elem_of_cons in Hin as [Heq|Hin]; cbn.
    + injection Heq as -> ->. rewrite lookup_add_names_other by done.
      unfold add_name; cbn. by rewrite lookup_insert_eq.
    + by apply IH.
Qed.

Lemma lookup_add_names_inv todo (STATUS : gmap string jsval) k v :
  fold_left add_name todo STATUS !! k = Some v ->
  STATUS !! k = Some v \/
  exists c p, (c, p) ∈ todo /\ k = reverse_name p /\ v = num c.
Proof.
  revert STATUS. induction todo as [|[c p] todo IH]; intros STATUS Hget; [by left|].
  cbn in Hget. apply IH in Hget as [Hget|(c' & p' & Hin & -> & ->)].
  - unfold add_name in Hget; cbn in Hget.
    destruct (decide (reverse_name p = k)) as [<-|Hne].
    + rewrite lookup_insert_eq in Hget. injection Hget as <-.
      right. exists c, p. split; [left|done].
    + rewrite lookup_insert_ne in Hget by done. by left.
  - right. exists c', p'. split; [by right|done].
Qed.

Lemma reverse_map_fold todo (STATUS : gmap string jsval) :
  (forall c p, (c, p) ∈ todo -> STATUS !! pretty c = Some (VStr p)) ->
  numeric_keys todo ->
  Forall (fun n => n ∉ keys_of todo) (names_of todo) ->
  fold_left (reverse_map StringToNumber ObjectToNumber) (keys_of todo) (Some STATUS)
  = Some (fold_left add_name todo STATUS).
Proof.
  revert STATUS. induction todo as [|[c p] todo IH]; intros STATUS Hget Hnum Hoff; [done|].
  cbn. unfold table_get. rewrite (Hget c p) by left. cbn.
  apply Forall_cons in Hnum as [Hc Hnum]. cbn in Hc. rewrite Hc.
  cbn in Hoff. apply Forall_cons in Hoff as [Hp Hoff].
  apply (IH (add_name STATUS (c, p))); [| done |].
  - intros c' p' Hin. unfold add_name; cbn.
    rewrite lookup_insert_ne; [apply Hget; by right|].
    intros Heq. apply Hp. right. rewrite Heq.
    apply (list_elem_of_fmap_2 (fun cp => pretty (fst cp)) todo (c', p') Hin).
  - eapply Forall_impl; [exact Hoff|]. intros n Hn Hin. apply Hn. by right.
Qed.

Lemma lookup_copy_of tbl c p :
  NoDup (keys_of tbl) -> (c, p) ∈ tbl ->
  copy_of tbl !! pretty c = Some (VStr p).
Proof.
  intros Hnd Hin. unfold copy_of. apply elem_of_list_to_map_1.
  - unfold keys_of in Hnd. by rewrite map_map.
  - apply (list_elem_of_fmap_2 (fun cp => (pretty (fst cp), VStr (snd cp))) tbl (c, p) Hin).
Qed.

Lemma lookup_copy_of_inv tbl k v :
  copy_of tbl !! k = Some v ->
  exists c p, (c, p) ∈ tbl /\ k = pretty c /\ v = VStr p.
Proof.
  intros Hget. unfold copy_of in Hget. apply elem_of_list_to_map_2 in Hget.
  apply list_elem_of_fmap in Hget as ([c p] & Heq & Hin).
  injection Heq as -> ->. by exists c, p.
Qed.

(** The table after loading, for any table whose keys are distinct digit
    strings and whose derived names are distinct and are not keys: the
    copied entries are still there, every derived name leads back to its
    code, and there is nothing else. *)
Lemma load_round_trip tbl :
  NoDup (keys_of tbl) -> numeric_keys tbl ->
  names_off_keys tbl -> NoDup (names_of tbl) ->
  exists STATUS,
    load tbl = Some STATUS /\
    (forall c p, (c, p) ∈ tbl ->
       STATUS !! pretty c = Some (VStr p) /\
       STATUS !! reverse_name p = Some (num c)) /\
    (forall k v, STATUS !! k = Some v ->
       exists c p, (c, p) ∈ tbl /\
         (k = pretty c /\ v = VStr p \/ k = reverse_name p /\ v = num c)).
Proof.
  intros Hkeys Hnum Hoff Hnames.
  exists (fold_left add_name tbl (copy_of tbl)). split; [|split].
  - unfold Errors.load. apply reverse_map_fold; [|done..].
    intros c p Hin. by apply lookup_copy_of.
  - intros c p Hin. split.
    + rewrite lookup_add_names_other; [by apply lookup_copy_of|].
      intros Hname. unfold names_off_keys in Hoff.
      rewrite Forall_forall in Hoff. apply (Hoff _ Hname).
      apply (list_elem_of_fmap_2 (fun cp => pretty (fst cp)) tbl (c, p) Hin).
    + by apply lookup_add_names_name.
  - intros k v Hget. apply lookup_add_names_inv in Hget as [Hget|(c & p & ? & ? & ?)].
    + apply lookup_copy_of_inv in Hget as (c & p & ? & ? & ?).
      exists c, p. split; [done|by left].
    + exists c, p. split; [done|by right].
Qed.

Lemma http_keys_distinct : NoDup (keys_of http_STATUS_CODES).
Proof. by_computation. Qed.

Lemma http_keys_numeric : numeric_keys http_STATUS_CODES.
Proof. unfold numeric_keys. repeat constructor. Qed.

Lemma http_names_off_keys : names_off_keys http_STATUS_CODES.
Proof. unfold names_off_keys. by_computation. Qed.

Lemma http_names_distinct : NoDup (names_of http_STATUS_CODES).
Proof. by_computation. Qed.

Lemma http_codes_truthy c p : (c, p) ∈ http_STATUS_CODES -> c <> 0.
Proof.
  intros Hin ->. revert Hin. by_computation.
Qed.

Lemma STATUS_CODES_spec :
  load http_STATUS_CODES = Some STATUS_CODES /\
  (forall c p, (c, p) ∈ http_STATUS_CODES ->
     STATUS_CODES !! pretty c = Some (VStr p) /\
     STATUS_CODES !! reverse_name p = Some (num c)) /\
  (forall k v, STATUS_CODES !! k = Some v ->
     exists c p, (c, p) ∈ http_STATUS_CODES /\
       (k = pretty c /\ v = VStr p \/ k = reverse_name p /\ v = num c)).
Proof.
  destruct (load_round_trip http_STATUS_CODES http_keys_distinct
              http_keys_numeric http_names_off_keys http_names_distinct)
    as (STATUS & Hload & Hget).
  unfold Errors.STATUS_CODES. rewrite Hload. by split.
Qed.

(** C8.  Once the module is loaded, every standard code [c] with phrase
    [p] is still mapped to [p] under its numeric key, and the key derived
    from [p] (characters outside [a-zA-Z0-9_] replaced by an underscore,
    then uppercased) is mapped to the number [c]. *)
Theorem STATUS_CODES_round_trip c p :
  (c, p) ∈ http_STATUS_CODES ->
  STATUS_CODES !! ToString (num c) = Some (VStr p) /\
  STATUS_CODES !! reverse_name p = Some (num c).
Proof.
  intros Hin. by apply STATUS_CODES_spec.
Qed.

End StatusTable.

Lemma STATUS_CODES_round_trip_witness :
  Errors.STATUS_CODES Sample.StringToNumber Sample.ObjectToNumber !! "404"
    = Some (VStr "Not Found") /\
  Errors.STATUS_CODES Sample.StringToNumber Sample.ObjectToNumber !! "NOT_FOUND"
    = Some (num 404).
Proof.
  apply (STATUS_CODES_round_trip Sample.StringToNumber Sample.ObjectToNumber
           404 "Not Found").
  by_computation.
Defined.

(** ** The error classes

    From here on the loaded table is reasoned about through its lookups,
    never by unfolding it. *)

Opaque Errors.STATUS_CODES.

Section ErrorClasses.
Import Errors.

Variable StringToNumber : string -> jsnum.
Variable ObjectToNumber : list (string * jsval) -> jsnum.
Abbreviation Number := (JS.Number StringToNumber ObjectToNumber).
Abbreviation STATUS_CODES := (Errors.STATUS_CODES StringToNumber ObjectToNumber).
Abbreviation INTERNAL_SERVER_ERROR :=
  (Errors.INTERNAL_SERVER_ERROR StringToNumber ObjectToNumber).
Abbreviation construct := (Errors.construct StringToNumber ObjectToNumber).
Abbreviation new_HTTPError := (Errors.new_HTTPError StringToNumber ObjectToNumber).
Abbreviation new_RequestError := (Errors.new_RequestError StringToNumber ObjectToNumber).
Abbreviation new_AuthorizationError :=
  (Errors.new_AuthorizationError StringToNumber ObjectToNumber).
Abbreviation new_NotFoundError :=
  (Errors.new_NotFoundError StringToNumber ObjectToNumber).

(** [Number(code) || STATUS_CODES.INTERNAL_SERVER_ERROR] *)
Abbreviation code_or_default code := (or_else (VNum (Number code)) INTERNAL_SERVER_ERROR).

Lemma table_get_code c p :
  (c, p) ∈ http_STATUS_CODES -> table_get STATUS_CODES (pretty c) = VStr p.
Proof.
  intros Hin. destruct (STATUS_CODES_spec StringToNumber ObjectToNumber) as (_ & Hget & _).
  unfold table_get. by destruct (Hget c p Hin) as [-> _].
Qed.

Lemma table_get_name c p :
  (c, p) ∈ http_STATUS_CODES -> table_get STATUS_CODES (reverse_name p) = num c.
Proof.
  intros Hin. destruct (STATUS_CODES_spec StringToNumber ObjectToNumber) as (_ & Hget & _).
  unfold table_get. by destruct (Hget c p Hin) as [_ ->].
Qed.

Lemma table_get_phrase_inv k phrase :
  table_get STATUS_CODES k = VStr phrase ->
  exists c, (c, phrase) ∈ http_STATUS_CODES /\ k = pretty c.
Proof.
  unfold table_get. destruct (STATUS_CODES !! k) as [v|] eqn:Hget; cbn; [|done].
  intros ->. destruct (STATUS_CODES_spec StringToNumber ObjectToNumber) as (_ & _ & Hinv).
  destruct (Hinv _ _ Hget) as (c & p & Hin & [[-> Hp]|[_ Hp]]); [|done].
  injection Hp as ->. exists c. split; [exact Hin|reflexivity].
Qed.

Lemma INTERNAL_SERVER_ERROR_is_500 : INTERNAL_SERVER_ERROR = num 500.
Proof. apply (table_get_name 500 "Internal Server Error"). by_computation. Qed.

Lemma BAD_REQUEST_is_400 : BAD_REQUEST StringToNumber ObjectToNumber = num 400.
Proof. apply (table_get_name 400 "Bad Request"). by_computation. Qed.

Lemma UNAUTHORIZED_is_401 : UNAUTHORIZED StringToNumber ObjectToNumber = num 401.
Proof. apply (table_get_name 401 "Unauthorized"). by_computation. Qed.

Lemma NOT_FOUND_is_404 : NOT_FOUND StringToNumber ObjectToNumber = num 404.
Proof. apply (table_get_name 404 "Not Found"). by_computation. Qed.

(** A falsy argument stays falsy under [Number()]. *)
Lemma Number_falsy code :
  ToBoolean code = false -> ToBoolean (VNum (Number code)) = false.
Proof.
  destruct code as [| |[|]|[|z]|s|props]; cbn; try done.
  destruct s; [done|]. cbn. discriminate.
Qed.

Lemma code_or_default_500 code :
  ToBoolean code = false \/ Number code = NaN -> code_or_default code = num 500.
Proof.
  intros Hcode. unfold or_else.
  assert (ToBoolean (VNum (Number code)) = false) as ->.
  { destruct Hcode as [Hfalsy| ->]; [by apply Number_falsy|done]. }
  apply INTERNAL_SERVER_ERROR_is_500.
Qed.

(** The code the constructor settles on is a number, and it prints as a
    key of the table only if it is one of the table's codes. *)
Lemma code_or_default_key code c :
  ToString (code_or_default code) = pretty c -> code_or_default code = num c.
Proof.
  unfold or_else. destruct (ToBoolean (VNum (Number code))) eqn:Htruthy.
  - destruct (Number code) as [|z]; [done|]. cbn [ToString NumberToString].
    intros Heq. by apply (inj pretty) in Heq as ->.
  - rewrite INTERNAL_SERVER_ERROR_is_500. unfold num. cbn [ToString NumberToString].
    intros Heq. by apply (inj pretty) in Heq as <-.
Qed.

Lemma construct_listed cls trace code message metadata c p :
  (c, p) ∈ http_STATUS_CODES -> code_or_default code = num c ->
  construct cls trace code message metadata
  = Some {| Errors.cls := cls;
            Errors.code := num c;
            name := replace_rejected M_REJECT_CHARS_keeps NOTHING p;
            Errors.message := or_else message (VStr p);
            metadata := or_else metadata (VObj []);
            stack := trace |}.
Proof.
  intros Hin Hcode. unfold Errors.construct. rewrite Hcode. cbn [ToString num NumberToString].
  by rewrite (table_get_code c p Hin).
Qed.

Lemma construct_inv cls trace code message metadata e :
  construct cls trace code message metadata = Some e ->
  exists c p, (c, p) ∈ http_STATUS_CODES /\ code_or_default code = num c.
Proof.
  unfold Errors.construct.
  destruct (table_get STATUS_CODES (ToString (code_or_default code))) as [| | | |phrase|]
    eqn:Hget; intros Hnew; [discriminate Hnew..| |discriminate Hnew].
  clear Hnew. apply table_get_phrase_inv in Hget as (c & Hin & Hkey).
  exists c, phrase. split; [done|]. by apply code_or_default_key.
Qed.

Lemma construct_sound cls trace code message metadata e :
  construct cls trace code message metadata = Some e ->
  exists c p, (c, p) ∈ http_STATUS_CODES /\ code_or_default code = num c /\
    e = {| Errors.cls := cls;
           Errors.code := num c;
           name := replace_rejected M_REJECT_CHARS_keeps NOTHING p;
           Errors.message := or_else message (VStr p);
           metadata := or_else metadata (VObj []);
           stack := trace |}.
Proof.
  intros Hnew. destruct (construct_inv _ _ _ _ _ _ Hnew) as (c & p & Hin & Hcode).
  exists c, p. split; [done|]. split; [done|].
  rewrite (construct_listed cls trace code message metadata c p Hin Hcode) in Hnew.
  by injection Hnew.
Qed.


(** C6, as the code has it.  For a code of the table, the name is the
    status phrase with every character outside [a-zA-Z0-9_] removed. *)
Theorem HTTPError_name_strips_phrase cls trace message metadata c p :
  (c, p) ∈ http_STATUS_CODES ->
  exists e, construct cls trace (num c) message metadata = Some e /\
            Errors.code e = num c /\
            name e = replace_rejected M_REJECT_CHARS_keeps NOTHING p.
Proof.
  intros Hin. eexists. split.
  - apply (construct_listed cls trace (num c) message metadata c p Hin).
    unfold or_else. cbn. destruct (c =? 0) eqn:Hzero; [|done].
    apply Z.eqb_eq in Hzero. by apply http_codes_truthy in Hin.
  - by split.
Qed.

(** C3, as the code has it.  The three subclasses fix their codes at
    400, 401 and 404 whatever the reason and metadata, the generic class
    falls back to 500, and the module has no other class. *)
Theorem taxonomy_codes trace reason metadata method path :
  (exists e, new_RequestError trace reason metadata = Some e /\
             Errors.code e = num 400 /\ cls e = RequestError_class) /\
  (exists e, new_AuthorizationError trace reason metadata = Some e /\
             Errors.code e = num 401 /\ cls e = AuthorizationError_class) /\
  (exists e, new_NotFoundError trace method path metadata = Some e /\
             Errors.code e = num 404 /\ cls e = NotFoundError_class) /\
  (exists e, new_HTTPError trace VUndefined reason metadata = Some e /\
             Errors.code e = num 500 /\ cls e = HTTPError_class) /\
  map fst exports = ["RequestError"; "AuthorizationError"; "NotFoundError"] /\
  (forall k : class,
     class_name k ∈ ["HTTPError"; "RequestError"; "AuthorizationError"; "NotFoundError"]).
Proof.
  split; [|split; [|split; [|split; [|split]]]].
  - eexists. split.
    + apply (construct_listed _ _ _ _ _ 400 "Bad Request"); [by_computation|].
      by rewrite BAD_REQUEST_is_400.
    + by split.
  - eexists. split.
    + apply (construct_listed _ _ _ _ _ 401 "Unauthorized"); [by_computation|].
      by rewrite UNAUTHORIZED_is_401.
    + by split.
  - eexists. split.
    + apply (construct_listed _ _ _ _ _ 404 "Not Found"); [by_computation|].
      by rewrite NOT_FOUND_is_404.
    + by split.
  - eexists. split.
    + apply (construct_listed _ _ _ _ _ 500 "Internal Server Error"); [by_computation|].
      apply code_or_default_500. by left.
    + by split.
  - done.
  - intros []; cbn; set_solver.
Qed.

End ErrorClasses.



Lemma HTTPError_name_strips_phrase_witness :
  exists e,
    Errors.construct Sample.StringToNumber Sample.ObjectToNumber
      Errors.HTTPError_class "" (num 400) VUndefined VUndefined = Some e /\
    Errors.code e = num 400 /\
    Errors.name e
    = replace_rejected Errors.M_REJECT_CHARS_keeps Errors.NOTHING "Bad Request".
Proof.
  apply (HTTPError_name_strips_phrase Sample.StringToNumber Sample.ObjectToNumber
           Errors.HTTPError_class "" VUndefined VUndefined 400 "Bad Request").
  by_computation.
Defined.

(** C6, as the specification words it, fails at code 400: the phrase is
    [Bad Request], the name is [BadRequest], and the uppercased phrase is
    something else. *)
Lemma HTTPError_name_is_not_the_uppercased_phrase :
  (400, "Bad Request") ∈ Errors.http_STATUS_CODES /\
  Errors.name <$> Errors.new_HTTPError Sample.StringToNumber Sample.ObjectToNumber
                    "" (num 400) VUndefined VUndefined
  = Some "BadRequest" /\
  Errors.name <$> Errors.new_HTTPError Sample.StringToNumber Sample.ObjectToNumber
                    "" (num 400) VUndefined VUndefined
  <> Some (toUpperCase "Bad Request").
Proof.
  split; [by_computation|]. split; [by vm_compute|]. vm_compute. discriminate.
Qed.

(** C3, as the specification words it, fails: no class of the module is
    called [UpstreamError] or [InternalError], and the module exports
    nothing under those names. *)
Lemma no_UpstreamError_or_InternalError_class :
  (~ exists k, Errors.class_name k = "UpstreamError") /\
  (~ exists k, Errors.class_name k = "InternalError") /\
  ("UpstreamError" ∉ map fst Errors.exports) /\
  ("InternalError" ∉ map fst Errors.exports).
Proof.
  split; [|split; [|split]].
  - intros [[] Hname]; discriminate.
  - intros [[] Hname]; discriminate.
  - by_computation.
  - by_computation.
Qed.

(** ** The terminal error handler *)

Section Handler.
Import Errors.

Variable StringToNumber : string -> jsnum.
Variable ObjectToNumber : list (string * jsval) -> jsnum.
Variable JSON_stringify : jsval -> string.
Abbreviation handler := (Errors.handler StringToNumber ObjectToNumber JSON_stringify).
Abbreviation render := (Errors.render StringToNumber ObjectToNumber JSON_stringify).
Abbreviation ISE := (Errors.INTERNAL_SERVER_ERROR StringToNumber ObjectToNumber).
Abbreviation settled code :=
  (or_else (VNum (JS.Number StringToNumber ObjectToNumber code)) ISE).

Lemma body_after_write chunk res :
  body (write chunk res) = body res +:+ chunk.
Proof.
  unfold body, write; cbn. induction (chunks res) as [|c cs IH]; cbn.
  - by rewrite append_nil_r.
  - by rewrite IH, append_assoc.
Qed.

(** What rendering leaves on the response. *)
Lemma render_response e res :
  let content := utf8 (JSON_stringify (toJSON e)) in
  render e res
  = {| headers :=
         set_prop "content-length" (num (Z.of_nat (String.length content)))
           (set_prop "content-type" (VStr "application/json") (headers res));
       statusCode := or_else (code e) (num 500);
       chunks := chunks res ++ [content];
       ended := true |}.
Proof.
  unfold Errors.render. by rewrite INTERNAL_SERVER_ERROR_is_500.
Qed.

Lemma body_render e res :
  body (render e res) = body res +:+ utf8 (JSON_stringify (toJSON e)).
Proof. rewrite render_response. apply (body_after_write _ res). Qed.

(** An instance is rendered as it is. *)
Lemma handler_instance trace e res :
  handler trace (Instance e) res = Some (render e res).
Proof. reflexivity. Qed.

(** Any other value is wrapped first; only its [code] and [message]
    properties are read. *)
Lemma handler_foreign trace v res :
  handler trace (Foreign v) res
  = c ← get_prop v "code";
    m ← get_prop v "message";
    e ← new_HTTPError StringToNumber ObjectToNumber trace (or_else c (num 500)) m VUndefined;
    Some (render e res).
Proof.
  unfold Errors.handler, Errors.wrap. rewrite INTERNAL_SERVER_ERROR_is_500.
  destruct (get_prop v "code") as [c|]; [|reflexivity]. cbn [mbind option_bind].
  destruct (get_prop v "message") as [m|]; reflexivity.
Qed.

(** When the wrapped code is one of the table's, the caller gets that
    status and the four fields, with empty metadata. *)
Lemma handler_foreign_listed trace v res c m z p :
  get_prop v "code" = Some c -> get_prop v "message" = Some m ->
  (z, p) ∈ http_STATUS_CODES -> settled (or_else c (num 500)) = num z ->
  exists out,
    handler trace (Foreign v) res = Some out /\
    statusCode out = num z /\ ended out = true /\
    body out
    = body res +:+
      utf8 (JSON_stringify
              (VObj [ ("code", num z);
                      ("name", VStr (replace_rejected M_REJECT_CHARS_keeps NOTHING p));
                      ("message", or_else m (VStr p));
                      ("metadata", VObj []) ])).
Proof.
  intros Hc Hm Hin Hz. rewrite handler_foreign, Hc, Hm. cbn.
  unfold Errors.new_HTTPError.
  rewrite (construct_listed _ _ _ trace _ m VUndefined z p Hin Hz). cbn.
  eexists. split; [reflexivity|]. rewrite body_render, render_response.
  split; [|split; reflexivity].
  cbn. unfold or_else. cbn.
  destruct (z =? 0) eqn:Hzero; [|reflexivity].
  apply Z.eqb_eq in Hzero. by apply http_codes_truthy in Hin.
Qed.

(** When it is not, the constructor throws and nothing is sent. *)
Lemma handler_foreign_unlisted trace v res c m :
  get_prop v "code" = Some c -> get_prop v "message" = Some m ->
  (forall z p, (z, p) ∈ http_STATUS_CODES -> settled (or_else c (num 500)) <> num z) ->
  handler trace (Foreign v) res = None.
Proof.
  intros Hc Hm Hout. rewrite handler_foreign, Hc, Hm. cbn.
  destruct (new_HTTPError _ _ trace (or_else c (num 500)) m VUndefined) as [e|] eqn:Hnew;
    [|reflexivity].
  unfold Errors.new_HTTPError in Hnew.
  destruct (construct_inv _ _ _ _ _ _ _ _ Hnew) as (z & p & Hin & Hz).
  destruct (Hout z p Hin Hz).
Qed.

(** The trace recorded at construction never reaches the response. *)
Lemma handler_ignores_stack trace trace' e s res :
  handler trace (Instance e) res
  = handler trace'
      (Instance {| cls := cls e; code := code e; name := name e;
                   message := message e; metadata := metadata e; stack := s |}) res.
Proof. by rewrite !handler_instance. Qed.

Lemma handler_foreign_ignores_stack trace trace' v res :
  handler trace (Foreign v) res = handler trace' (Foreign v) res.
Proof.
  rewrite !handler_foreign.
  destruct (get_prop v "code") as [c|]; [|done]. cbn.
  destruct (get_prop v "message") as [m|]; [|done]. cbn.
  unfold Errors.new_HTTPError, Errors.construct.
  by destruct (table_get _ _).
Qed.

(** C1 fails on the code.  An error that is not an [HTTPError] and whose
    [code] is a number outside the status table, such as the exit status 1
    of a failed child process, makes the constructor throw inside the
    handler: no response is written. *)
Theorem handler_throws_on_unlisted_code trace res :
  handler trace
    (Foreign (VObj [ ("code", num 1); ("message", VStr "Command failed") ])) res
  = None.
Proof.
  apply (handler_foreign_unlisted trace _ res (num 1) (VStr "Command failed"));
    [done|done|].
  intros z p Hin. cbn. intros Heq. injection Heq as <-. revert Hin. by_computation.
Qed.

End Handler.

(** ** The server's pipeline and its configuration *)

Section Pipeline.
Import Server.

(** C2.  Whatever the configuration, the layers are registered in the
    order correlation, authentication, forwarding; the correlation layer
    is there exactly when [correlation:enable] is truthy, and the other
    two always are.  Each layer is built from its own configuration
    subtree. *)
Theorem pipeline_order (store : jsval) :
  app (main store)
  = ((if ToBoolean (Config.get store "correlation:enable")
      then [Correlation (Config.get store "correlation")] else [])
     ++ [Authentication (Config.get store "local");
         Forwarding (Config.get store "service")])%list /\
  map kind_of (app (main store))
  = ((if ToBoolean (Config.get store "correlation:enable")
      then [CorrelationStage] else [])
     ++ [AuthenticationStage; ForwardingStage])%list.
Proof.
  unfold main, use, create. cbn [app].
  by destruct (ToBoolean (Config.get store "correlation:enable")).
Qed.

Lemma pipeline_kinds_when_enabled store :
  Config.get store "correlation:enable" = VBool true ->
  map kind_of (app (main store))
  = [CorrelationStage; AuthenticationStage; ForwardingStage].
Proof.
  intros Henable. unfold main, use, create. cbn [app]. by rewrite Henable.
Qed.

Lemma pipeline_kinds_when_disabled store :
  Config.get store "correlation:enable" = VBool false ->
  map kind_of (app (main store)) = [AuthenticationStage; ForwardingStage].
Proof.
  intros Henable. unfold main, use, create. cbn [app]. by rewrite Henable.
Qed.

Lemma pipeline_with_defaults :
  map kind_of (app (main Config.defaults))
  = [CorrelationStage; AuthenticationStage; ForwardingStage] /\
  port (main Config.defaults) = num 9300 /\
  bind (main Config.defaults) = VStr "0.0.0.0".
Proof. by vm_compute. Qed.

End Pipeline.

(** C7, as the documentation has it.  The supported parameters are the
    groups [listen], [log], [correlation], [local] and [service], with
    these defaults. *)
Theorem configuration_defaults :
  Config.keys Config.defaults = ["listen"; "log"; "correlation"; "local"; "service"] /\
  Config.get Config.defaults "listen:port" = num 9300 /\
  Config.get Config.defaults "listen:bind" = VStr "0.0.0.0" /\
  Config.get Config.defaults "log:level" = VStr "info" /\
  Config.get Config.defaults "correlation:enable" = VBool true /\
  Config.get Config.defaults "correlation:header" = VStr "X-Request-Identifier" /\
  Config.get Config.defaults "local:db:path" = VStr "data/keys.json" /\
  Config.get Config.defaults "local:db:signal" = VStr "SIGHUP" /\
  Config.get Config.defaults "local:algorithm" = VStr "sha256" /\
  Config.get Config.defaults "local:skew" = num 1000 /\
  Config.get Config.defaults "service:hostname" = VStr "localhost" /\
  Config.get Config.defaults "service:port" = num 9301 /\
  Config.keys (Config.get Config.defaults "listen") = ["port"; "bind"] /\
  Config.keys (Config.get Config.defaults "log") = ["level"] /\
  Config.keys (Config.get Config.defaults "correlation") = ["enable"; "header"] /\
  Config.keys (Config.get Config.defaults "local") = ["db"; "algorithm"; "skew"] /\
  Config.keys (Config.get Config.defaults "local:db") = ["path"; "signal"] /\
  Config.keys (Config.get Config.defaults "service") = ["port"; "hostname"].
Proof. by vm_compute. Qed.

(** C7, as the specification words it, fails: the documented surface has
    a [log] group, with a default level, next to the groups the claim
    lists. *)
Lemma configuration_has_a_log_group :
  ("log" ∈ Config.keys Config.defaults) /\
  Config.get Config.defaults "log:level" = VStr "info" /\
  ("log" ∉ ["listen"; "correlation"; "local"; "service"]) /\
  (~ forall k, k ∈ Config.keys Config.defaults ->
               k ∈ ["listen"; "correlation"; "local"; "service"]).
Proof.
  split; [by_computation|]. split; [by vm_compute|]. split; [by_computation|].
  intros Hall. specialize (Hall "log"). revert Hall. by_computation.
Qed.

(** ** The reference client *)

Section ClientFacts.
Import Tester.

Variable LocalTZA : Z -> bool -> Z.
Variable Date_toString : Z -> string.
Variable process_version : string.
Variable stdin : string.
Variable readFile : string -> option string.
Variable Crypto_hash : string -> option (string -> string).
Variable Signature_sign : string -> params -> string -> string.

Abbreviation setMilliseconds := (Tester.setMilliseconds LocalTZA).
Abbreviation read := (Tester.read stdin readFile).
Abbreviation digest := (Tester.digest Crypto_hash).
Abbreviation request := (Tester.request stdin readFile Crypto_hash Signature_sign).
Abbreviation prepare :=
  (Tester.prepare LocalTZA Date_toString process_version).
Abbreviation main :=
  (Tester.main LocalTZA Date_toString process_version stdin readFile
     Crypto_hash Signature_sign).

(** Clearing the milliseconds of a local time rounds it down to a whole
    second. *)
Lemma cleared_local_time l :
  MakeDate (Day l) (MakeTime (HourFromTime l) (MinFromTime l) (SecFromTime l) 0)
  = 1000 * (l / 1000).
Proof.
  unfold MakeDate, MakeTime, Day, HourFromTime, MinFromTime, SecFromTime,
    msPerDay, msPerHour, msPerMinute, msPerSecond.
  clear. Z.to_euclidean_division_equations. lia.
Qed.

(** [setMilliseconds(0)] goes to local time with the offset at [t],
    clears the milliseconds there, and comes back with the offset the
    host applies to that local time. *)
Lemma setMilliseconds_zero_any t :
  setMilliseconds t 0
  = 1000 * (LocalTime LocalTZA t / 1000)
    - LocalTZA (1000 * (LocalTime LocalTZA t / 1000)) false.
Proof.
  unfold Tester.setMilliseconds, UTC. by rewrite cleared_local_time.
Qed.

(** Within one zone offset this is the time value rounded down to a
    whole second. *)
Lemma setMilliseconds_zero t :
  unambiguous LocalTZA t -> setMilliseconds t 0 = 1000 * (t / 1000).
Proof.
  intros [Hwhole Hsame]. rewrite setMilliseconds_zero_any, Hsame.
  unfold LocalTime. revert Hwhole. generalize (LocalTZA t true) as offset.
  intros offset Hwhole. clear - Hwhole. Z.to_euclidean_division_equations. lia.
Qed.

(** The digest of a payload: one [update] with the buffer when there is
    one, none otherwise; either way the hash of the body's bytes. *)
Lemma digest_supported algorithm H b :
  Crypto_hash algorithm = Some H ->
  digest algorithm b = Some (base64 (H (payload_bytes b))).
Proof.
  intros Hhash. unfold Tester.digest, createHash. rewrite Hhash. cbn.
  by destruct b.
Qed.

Lemma digest_unsupported algorithm b :
  Crypto_hash algorithm = None -> digest algorithm b = None.
Proof. intros Hhash. unfold Tester.digest, createHash. by rewrite Hhash. Qed.

(** The parameters as the signature sees them, and what goes out. *)
Abbreviation signed_params opts p b H :=
  (with_digest (opt_digest opts) (base64 (H (payload_bytes b))) (set_payload b p)).

Lemma request_steps opts p b H :
  read (opt_payload opts) = Some b -> Crypto_hash (opt_digest opts) = Some H ->
  request opts p
  = Some (send (authorize Signature_sign (opt_secret opts) (signed_params opts p b H))).
Proof.
  intros Hread Hhash. unfold Tester.request. rewrite Hread. cbn [mbind option_bind].
  by rewrite (digest_supported _ H b Hhash).
Qed.

Lemma request_inv opts p out :
  request opts p = Some out ->
  exists b H,
    read (opt_payload opts) = Some b /\ Crypto_hash (opt_digest opts) = Some H /\
    out = send (authorize Signature_sign (opt_secret opts) (signed_params opts p b H)).
Proof.
  intros Hreq.
  destruct (read (opt_payload opts)) as [b|] eqn:Hread;
    [|unfold Tester.request in Hreq; by rewrite Hread in Hreq].
  destruct (Crypto_hash (opt_digest opts)) as [H|] eqn:Hhash.
  - rewrite (request_steps opts p b H Hread Hhash) in Hreq. injection Hreq as <-.
    by exists b, H.
  - unfold Tester.request in Hreq. rewrite Hread in Hreq. cbn [mbind option_bind] in Hreq.
    by rewrite (digest_unsupported _ b Hhash) in Hreq.
Qed.

Lemma headers_with_digest algorithm signature p k :
  assoc k (headers (with_digest algorithm signature p))
  = if String.eqb k "digest" then Some (VStr (algorithm +:+ "=" +:+ signature))
    else assoc k (headers p).
Proof.
  unfold with_digest, set_header; cbn [headers].
  destruct (String.eqb k "digest") eqn:Hk.
  - apply String.eqb_eq in Hk as ->. apply assoc_set_prop_eq.
  - apply String.eqb_neq in Hk. by apply assoc_set_prop_ne.
Qed.

Lemma headers_authorize secret p k :
  assoc k (headers (authorize Signature_sign secret p))
  = if String.eqb k "authorization"
    then Some (VStr ("Rapid7-HMAC-V1-SHA256 " +:+
                     base64 (utf8 (identity p +:+ ":" +:+
                                   Signature_sign "sha256" p secret))))
    else assoc k (headers p).
Proof.
  unfold authorize, set_header; cbn [headers].
  destruct (String.eqb k "authorization") eqn:Hk.
  - apply String.eqb_eq in Hk as ->. apply assoc_set_prop_eq.
  - apply String.eqb_neq in Hk. by apply assoc_set_prop_ne.
Qed.

(** The value of the [authorization] header never reads as the scheme
    followed by the bare [identity:signature] pair. *)
Lemma authorization_is_encoded secret p :
  assoc "authorization" (headers (authorize Signature_sign secret p))
  <> Some (VStr ("Rapid7-HMAC-V1-SHA256 " +:+
                 (identity p +:+ ":" +:+ Signature_sign "sha256" p secret))).
Proof.
  rewrite headers_authorize. cbn [String.eqb Ascii.eqb Bool.eqb].
  intros Heq. injection Heq as Heq. apply (inj (String.app _)) in Heq.
  apply (f_equal (includes ":")) in Heq.
  rewrite base64_no_colon, !includes_app in Heq. cbn in Heq.
  rewrite orb_true_r in Heq. discriminate Heq.
Qed.

(** C5.  Every request that goes out carries a [digest] header made of
    the algorithm name, an equals sign and the base64 hash, under that
    algorithm, of the bytes written as the request body, which are the
    bytes of the payload that was read; the request goes out whenever the
    payload can be read and the algorithm exists; and when the payload is
    absent or empty the header holds the hash of the empty input. *)
Theorem digest_header opts p :
  (forall out, request opts p = Some out ->
     exists H,
       Crypto_hash (opt_digest opts) = Some H /\
       read (opt_payload opts) = Some (body (sent out)) /\
       written out
       = (if payload_given (body (sent out))
          then Some (payload_bytes (body (sent out))) else None) /\
       assoc "digest" (headers (sent out))
       = Some (VStr (opt_digest opts +:+ "=" +:+
                     base64 (H (default "" (written out)))))) /\
  (forall b H,
     read (opt_payload opts) = Some b -> Crypto_hash (opt_digest opts) = Some H ->
     exists out,
       request opts p = Some out /\
       body (sent out) = b /\
       default "" (written out) = payload_bytes b /\
       assoc "digest" (headers (sent out))
       = Some (VStr (opt_digest opts +:+ "=" +:+ base64 (H (payload_bytes b))))) /\
  (opt_payload opts = VBool false \/ opt_payload opts = VStr "" ->
   forall out, request opts p = Some out ->
     exists H,
       Crypto_hash (opt_digest opts) = Some H /\
       assoc "digest" (headers (sent out))
       = Some (VStr (opt_digest opts +:+ "=" +:+ base64 (H ""))) /\
       default "" (written out) = "").
Proof.
  split; [|split].
  - intros out Hreq. apply request_inv in Hreq as (b & H & Hread & Hhash & ->).
    exists H. split; [exact Hhash|]. split; [exact Hread|]. split; [reflexivity|].
    unfold send; cbn [sent written]. rewrite headers_authorize, headers_with_digest.
    by destruct b.
  - intros b H Hread Hhash. eexists. split; [by apply request_steps|].
    split; [reflexivity|]. split; [by destruct b|].
    unfold send; cbn [sent]. by rewrite headers_authorize, headers_with_digest.
  - intros Hpayload out Hreq.
    apply request_inv in Hreq as (b & H & Hread & Hhash & ->).
    exists H. split; [exact Hhash|].
    assert (payload_bytes b = "") as Hempty.
    { destruct Hpayload as [Hp|Hp]; rewrite Hp in Hread; by injection Hread as <-. }
    unfold send; cbn [sent written]. rewrite headers_authorize, headers_with_digest.
    cbn. rewrite Hempty. split; [reflexivity|]. by destruct b, (payload_given _).
Qed.

(** C4, as the code has it.  Every request the client sends carries the
    headers [date], [host], [digest] and [authorization], and the last is
    the scheme [Rapid7-HMAC-V1-SHA256], a space, and the base64 encoding
    of the identity and the signature joined by a colon. *)
Theorem signed_request_headers now url opts out :
  main now url opts = Some out ->
  exists signed,
    assoc "date" (headers (sent out)) = Some (VStr (Date_toString now)) /\
    assoc "host" (headers (sent out)) = Some (url_host url) /\
    is_Some (assoc "digest" (headers (sent out))) /\
    assoc "authorization" (headers (sent out))
    = Some (VStr ("Rapid7-HMAC-V1-SHA256 " +:+
                  base64 (utf8 (opt_identity opts +:+ ":" +:+
                                Signature_sign "sha256" signed (opt_secret opts))))) /\
    is_Some (assoc "digest" (headers signed)) /\
    assoc "authorization" (headers signed) = None.
Proof.
  intros Hmain. apply request_inv in Hmain as (b & H & Hread & Hhash & ->).
  exists (signed_params opts (prepare now url opts) b H).
  unfold send; cbn [sent]. rewrite !headers_authorize, !headers_with_digest. cbn.
  repeat split; by eexists.
Qed.

(** What is signed: the parameters with the date that clearing the
    milliseconds gave, under a [date] header that is still the string
    form of the clock reading. *)
Lemma signed_date now url opts out :
  main now url opts = Some out ->
  exists signed,
    assoc "authorization" (headers (sent out))
    = Some (VStr ("Rapid7-HMAC-V1-SHA256 " +:+
                  base64 (utf8 (opt_identity opts +:+ ":" +:+
                                Signature_sign "sha256" signed (opt_secret opts))))) /\
    date signed
    = 1000 * (LocalTime LocalTZA now / 1000)
      - LocalTZA (1000 * (LocalTime LocalTZA now / 1000)) false /\
    date (sent out) = date signed /\
    assoc "date" (headers signed) = Some (VStr (Date_toString now)) /\
    assoc "date" (headers (sent out)) = Some (VStr (Date_toString now)).
Proof.
  intros Hmain. apply request_inv in Hmain as (b & H & Hread & Hhash & ->).
  exists (signed_params opts (prepare now url opts) b H).
  unfold send; cbn [sent]. rewrite !headers_authorize, !headers_with_digest.
  split; [done|]. split; [apply setMilliseconds_zero_any|]. by repeat split.
Qed.

End ClientFacts.

Lemma sample_request_sent : Sample.main 1234567 = Some Sample.sent_at_1234567.
Proof. by vm_compute. Qed.

Lemma sample_hello_sent :
  Tester.request "" Sample.readFile Sample.Crypto_hash Sample.Signature_sign
    Sample.opts_hello
    (Tester.prepare Sample.LocalTZA Sample.Date_toString "v4.4.0" 1234567
       Sample.url Sample.opts_hello)
  = Some Sample.sent_hello.
Proof. by vm_compute. Qed.

Lemma digest_header_witness :
  (exists H,
     Sample.Crypto_hash (Tester.opt_digest Sample.opts_hello) = Some H /\
     Tester.read "" Sample.readFile (Tester.opt_payload Sample.opts_hello)
     = Some (Tester.body (Tester.sent Sample.sent_hello)) /\
     Tester.written Sample.sent_hello
     = (if Tester.payload_given (Tester.body (Tester.sent Sample.sent_hello))
        then Some (Tester.payload_bytes (Tester.body (Tester.sent Sample.sent_hello)))
        else None) /\
     assoc "digest" (Tester.headers (Tester.sent Sample.sent_hello))
     = Some (VStr (Tester.opt_digest Sample.opts_hello +:+ "=" +:+
                   base64 (H (default "" (Tester.written Sample.sent_hello)))))) /\
  (exists out,
     Tester.request "" Sample.readFile Sample.Crypto_hash Sample.Signature_sign
       Sample.opts_hello
       (Tester.prepare Sample.LocalTZA Sample.Date_toString "v4.4.0" 1234567
          Sample.url Sample.opts_hello) = Some out /\
     Tester.body (Tester.sent out) = Tester.Buffer "hello" /\
     default "" (Tester.written out) = Tester.payload_bytes (Tester.Buffer "hello") /\
     assoc "digest" (Tester.headers (Tester.sent out))
     = Some (VStr (Tester.opt_digest Sample.opts_hello +:+ "=" +:+
                   base64 ("#" +:+ Tester.payload_bytes (Tester.Buffer "hello"))))) /\
  (exists H,
     Sample.Crypto_hash (Tester.opt_digest Sample.opts) = Some H /\
     assoc "digest" (Tester.headers (Tester.sent Sample.sent_at_1234567))
     = Some (VStr (Tester.opt_digest Sample.opts +:+ "=" +:+ base64 (H ""))) /\
     default "" (Tester.written Sample.sent_at_1234567) = "").
Proof.
  destruct (digest_header "" Sample.readFile Sample.Crypto_hash Sample.Signature_sign
              Sample.opts_hello
              (Tester.prepare Sample.LocalTZA Sample.Date_toString "v4.4.0" 1234567
                 Sample.url Sample.opts_hello))
    as (Hsent & Hsends & _).
  destruct (digest_header "" Sample.readFile Sample.Crypto_hash Sample.Signature_sign
              Sample.opts
              (Tester.prepare Sample.LocalTZA Sample.Date_toString "v4.4.0" 1234567
                 Sample.url Sample.opts))
    as (_ & _ & Hempty).
  split; [|split].
  - apply Hsent. vm_compute. reflexivity.
  - apply (Hsends (Tester.Buffer "hello") (fun s => "#" +:+ s)); reflexivity.
  - apply Hempty; [left; reflexivity|]. vm_compute. reflexivity.
Defined.

Lemma signed_request_headers_witness :
  exists signed,
    assoc "date" (Tester.headers (Tester.sent Sample.sent_at_1234567))
    = Some (VStr (Sample.Date_toString 1234567)) /\
    assoc "host" (Tester.headers (Tester.sent Sample.sent_at_1234567))
    = Some (Tester.url_host Sample.url) /\
    is_Some (assoc "digest" (Tester.headers (Tester.sent Sample.sent_at_1234567))) /\
    assoc "authorization" (Tester.headers (Tester.sent Sample.sent_at_1234567))
    = Some (VStr ("Rapid7-HMAC-V1-SHA256 " +:+
                  base64 (utf8 (Tester.opt_identity Sample.opts +:+ ":" +:+
                                Sample.Signature_sign "sha256" signed
                                  (Tester.opt_secret Sample.opts))))) /\
    is_Some (assoc "digest" (Tester.headers signed)) /\
    assoc "authorization" (Tester.headers signed) = None.
Proof.
  apply (signed_request_headers Sample.LocalTZA Sample.Date_toString "v4.4.0" "" Sample.readFile
           Sample.Crypto_hash Sample.Signature_sign 1234567 Sample.url Sample.opts
           Sample.sent_at_1234567).
  vm_compute. reflexivity.
Defined.

(** C10 fails on the code.  In the zone of Berlin, at 01:30:00.500 UTC
    on 25 October 2026, half an hour after the end of summer time, the
    local time 02:30:00 is a repeated one: clearing the milliseconds goes
    through it and comes back one hour early.  Whatever the signature
    function, the request is signed with a date 3600 seconds before the
    clock reading rounded down to the second, in another second than the
    [date] header it carries, which is still the string form of the
    clock reading. *)
Theorem signed_date_is_an_hour_early_after_fall_back
    (Date_toString : Z -> string)
    (Signature_sign : string -> Tester.params -> string -> string) :
  exists out signed,
    Tester.main Sample.Berlin_LocalTZA Date_toString "v4.4.0" ""
      Sample.readFile Sample.Crypto_hash Signature_sign
      1792891800500 Sample.url Sample.opts = Some out /\
    assoc "authorization" (Tester.headers (Tester.sent out))
    = Some (VStr ("Rapid7-HMAC-V1-SHA256 " +:+
                  base64 (utf8 ("a:" +:+ Signature_sign "sha256" signed "s3cret")))) /\
    Tester.date signed = 1000 * (1792891800500 / 1000) - 3600000 /\
    Tester.date signed / 1000 <> 1792891800500 / 1000 /\
    Tester.msFromTime (Tester.date signed) = 0 /\
    Tester.date (Tester.sent out) = Tester.date signed /\
    assoc "date" (Tester.headers signed) = Some (VStr (Date_toString 1792891800500)) /\
    assoc "date" (Tester.headers (Tester.sent out))
    = Some (VStr (Date_toString 1792891800500)).
Proof.
  assert (exists out,
            Tester.main Sample.Berlin_LocalTZA Date_toString "v4.4.0" ""
              Sample.readFile Sample.Crypto_hash Signature_sign
              1792891800500 Sample.url Sample.opts = Some out) as [out Hmain].
  { eexists. by apply request_steps. }
  destruct (signed_date _ _ _ _ _ _ _ _ _ _ _ Hmain)
    as (signed & Hauth & Hdate & Hsent & Hheader & Hheader').
  exists out, signed. split; [exact Hmain|]. split; [exact Hauth|].
  assert (Tester.date signed = 1792888200000) as Hvalue.
  { rewrite Hdate. by vm_compute. }
  rewrite Hvalue. split; [by vm_compute|]. split; [by vm_compute|].
  split; [by vm_compute|]. by rewrite <- Hvalue.
Qed.

(** C4, as the specification words it, fails: for the identity [a] and
    the signature [sig] the header is not the scheme followed by [a:sig]
    but by the base64 encoding of that pair. *)
Lemma authorization_is_not_the_plain_pair :
  Sample.main 1234567 = Some Sample.sent_at_1234567 /\
  assoc "authorization" (Tester.headers (Tester.sent Sample.sent_at_1234567))
  = Some (VStr "Rapid7-HMAC-V1-SHA256 YTpzaWc=") /\
  assoc "authorization" (Tester.headers (Tester.sent Sample.sent_at_1234567))
  <> Some (VStr ("Rapid7-HMAC-V1-SHA256 " +:+ Tester.opt_identity Sample.opts +:+ ":" +:+
                 Sample.Signature_sign "sha256" Sample.signed_at_1234567
                   (Tester.opt_secret Sample.opts))).
Proof.
  split; [by vm_compute|]. split; [by vm_compute|]. vm_compute. discriminate.
Qed.

(** * Further properties of the sources *)

(** ** Object literals *)

Lemma assoc_absent k (props : list (string * jsval)) :
  k ∉ map fst props -> assoc k props = None.
Proof.
  induction props as [|[k' v'] props IH]; [done|]. cbn. intros Hk.
  apply not_elem_of_cons in Hk as [Hne Hk].
  apply String.eqb_neq in Hne. rewrite Hne. by apply IH.
Qed.

Lemma keys_set_prop_present k v (props : list (string * jsval)) :
  is_Some (assoc k props) -> map fst (set_prop k v props) = map fst props.
Proof.
  induction props as [|[k' v'] props IH]; cbn; [by intros [? ?]|].
  destruct (String.eqb k k') eqn:Hk; cbn.
  - apply String.eqb_eq in Hk as ->. done.
  - intros Hsome. by rewrite IH.
Qed.

(** [Object.assign]: a property of the source wins, anything else is the
    target's. *)
Lemma assoc_assign_props source target k :
  NoDup (map fst source) ->
  assoc k (fold_left (fun acc kv => set_prop (fst kv) (snd kv) acc) source target)
  = match assoc k source with
    | Some v => Some v
    | None => assoc k target
    end.
Proof.
  revert target. induction source as [|[k1 v1] source IH]; intros target Hnd; [done|].
  cbn in Hnd. apply NoDup_cons in Hnd as [Hfresh Hnd]. cbn.
  rewrite IH by done. destruct (String.eqb k k1) eqn:Hk.
  - apply String.eqb_eq in Hk as ->.
    by rewrite (assoc_absent k1 source Hfresh), assoc_set_prop_eq.
  - apply String.eqb_neq in Hk. by rewrite (assoc_set_prop_ne k k1 v1 target Hk).
Qed.

Lemma assoc_Object_assign target source k :
  NoDup (map fst (own_props source)) ->
  assoc k (Object_assign target source)
  = match assoc k (own_props source) with
    | Some v => Some v
    | None => assoc k target
    end.
Proof. apply assoc_assign_props. Qed.

(** ** More on [lib/errors.js] *)

(** Every character, once put through the reverse-key mapping, is an
    uppercase letter, a digit or an underscore. *)
Lemma reverse_unit_shape a :
  let b := upper_unit (if Errors.M_REJECT_CHARS_keeps a then a else "_"%char) in
  is_upper b || is_digit b || (code_unit b =? 95) = true.
Proof. destruct a as [[] [] [] [] [] [] [] []]; reflexivity. Qed.

Lemma reverse_name_cons a message :
  Errors.reverse_name (String a message)
  = String (upper_unit (if Errors.M_REJECT_CHARS_keeps a then a else "_"%char))
      (Errors.reverse_name message).
Proof.
  unfold Errors.reverse_name.
  change (replace_rejected Errors.M_REJECT_CHARS_keeps "_" (String a message))
    with ((if Errors.M_REJECT_CHARS_keeps a then String a EmptyString else "_")
          +:+ replace_rejected Errors.M_REJECT_CHARS_keeps "_" message).
  by destruct (Errors.M_REJECT_CHARS_keeps a).
Qed.

(** X1.  The key derived from a status phrase has the length of the
    phrase and consists of uppercase letters, digits and underscores
    only. *)
Theorem reverse_name_shape message :
  String.length (Errors.reverse_name message) = String.length message /\
  forall a, includes a (Errors.reverse_name message) = true ->
            is_upper a || is_digit a || (code_unit a =? 95) = true.
Proof.
  induction message as [|b message [IHlen IHchars]]; [by split|].
  rewrite reverse_name_cons. split; [cbn; by rewrite IHlen|].
  intros a. cbn [includes]. intros Hin. apply orb_true_iff in Hin as [Heq|Hin].
  - apply Ascii.eqb_eq in Heq as ->. apply reverse_unit_shape.
  - by apply IHchars.
Qed.

Lemma reverse_name_shape_witness :
  is_upper "_" || is_digit "_" || (code_unit "_" =? 95) = true.
Proof.
  apply (proj2 (reverse_name_shape "Not Found") "_"%char). reflexivity.
Defined.

Lemma stripped_chars_kept keep s a :
  includes a (replace_rejected keep Errors.NOTHING s) = true -> keep a = true.
Proof.
  induction s as [|b s IH]; [done|].
  change (replace_rejected keep Errors.NOTHING (String b s))
    with ((if keep b then String b EmptyString else "")
          +:+ replace_rejected keep Errors.NOTHING s).
  destruct (keep b) eqn:Hb; [|exact IH].
  change (includes a (String b (replace_rejected keep Errors.NOTHING s)) = true
          -> keep a = true).
  cbn [includes]. intros Hin. apply orb_true_iff in Hin as [Heq|Hin]; [|by apply IH].
  by apply Ascii.eqb_eq in Heq as ->.
Qed.

Lemma http_phrases_named :
  Forall (fun cp : Z * string =>
            snd cp <> "" /\
            replace_rejected Errors.M_REJECT_CHARS_keeps Errors.NOTHING (snd cp) <> "")
    Errors.http_STATUS_CODES.
Proof. by_computation. Qed.

Section ErrorsMore.
Import Errors.

Variable StringToNumber : string -> jsnum.
Variable ObjectToNumber : list (string * jsval) -> jsnum.
Variable JSON_stringify : jsval -> string.
Abbreviation Number := (JS.Number StringToNumber ObjectToNumber).
Abbreviation STATUS_CODES := (Errors.STATUS_CODES StringToNumber ObjectToNumber).
Abbreviation construct := (Errors.construct StringToNumber ObjectToNumber).
Abbreviation new_HTTPError := (Errors.new_HTTPError StringToNumber ObjectToNumber).
Abbreviation new_NotFoundError :=
  (Errors.new_NotFoundError StringToNumber ObjectToNumber).
Abbreviation handler := (Errors.handler StringToNumber ObjectToNumber JSON_stringify).
Abbreviation render := (Errors.render StringToNumber ObjectToNumber JSON_stringify).
Abbreviation ISE := (Errors.INTERNAL_SERVER_ERROR StringToNumber ObjectToNumber).
Abbreviation settled code :=
  (or_else (VNum (JS.Number StringToNumber ObjectToNumber code)) ISE).

Lemma constructed_code_truthy cls trace code message metadata e :
  construct cls trace code message metadata = Some e ->
  ToBoolean (Errors.code e) = true.
Proof.
  intros Hnew. apply construct_sound in Hnew as (c & p & Hin & _ & ->). cbn.
  apply negb_true_iff, Z.eqb_neq. by apply (http_codes_truthy c p).
Qed.

(** X2.  The loaded table holds nothing but the two kinds of entries: a
    phrase under the decimal key of its code, and a code under the key
    derived from its phrase. *)
Theorem STATUS_CODES_entries k v :
  STATUS_CODES !! k = Some v ->
  exists c p, (c, p) ∈ http_STATUS_CODES /\
    (k = ToString (num c) /\ v = VStr p \/ k = reverse_name p /\ v = num c).
Proof.
  intros Hget.
  destruct (STATUS_CODES_spec StringToNumber ObjectToNumber) as (_ & _ & Hinv).
  exact (Hinv k v Hget).
Qed.

(** X3.  Whatever the arguments, an error the constructor returns has a
    truthy code, message and metadata and a non-empty name made of the
    characters [a-zA-Z0-9_], so that none of the four fields of its JSON
    form is undefined. *)
Theorem constructed_error_is_complete cls trace code message metadata e :
  construct cls trace code message metadata = Some e ->
  ToBoolean (Errors.code e) = true /\
  name e <> "" /\
  (forall a, includes a (name e) = true -> M_REJECT_CHARS_keeps a = true) /\
  ToBoolean (Errors.message e) = true /\
  ToBoolean (Errors.metadata e) = true.
Proof.
  intros Hnew. apply construct_sound in Hnew as (c & p & Hin & _ & ->). cbn.
  pose proof (http_codes_truthy c p Hin) as Hc.
  pose proof http_phrases_named as Hnamed. rewrite Forall_forall in Hnamed.
  destruct (Hnamed (c, p) Hin) as [Hp Hname]. cbn in Hp, Hname.
  split; [by apply negb_true_iff, Z.eqb_neq|]. split; [done|].
  split; [intros a; apply stripped_chars_kept|].
  unfold or_else. split.
  - destruct (ToBoolean message) eqn:Hm; [done|]. cbn.
    by apply negb_true_iff, String.eqb_neq.
  - by destruct (ToBoolean metadata) eqn:Hmd.
Qed.

(** X4.  On a response on which nothing has been sent yet, and for an
    error the constructor returned whose code is not one of the statuses
    that go out without a body (1xx, 204, 304), the handler answers: it
    sends the error's code as the status, writes the JSON text as the one
    chunk of the body, ends the response, and declares the content type
    [application/json] and a content length equal to the byte length of
    that body; headers set before under other names are kept. *)
Theorem handler_answers_constructed cls trace trace' code message metadata e res :
  construct cls trace code message metadata = Some e ->
  not_started res ->
  bodiless (Errors.code e) = false ->
  exists out,
    handler trace' (Instance e) res = Some out /\
    statusCode out = Errors.code e /\
    ended out = true /\
    chunks out = [utf8 (JSON_stringify (toJSON e))] /\
    body out = utf8 (JSON_stringify (toJSON e)) /\
    assoc "content-type" (headers out) = Some (VStr "application/json") /\
    assoc "content-length" (headers out)
    = Some (num (Z.of_nat (String.length (body out)))) /\
    (forall h, h <> "content-type" -> h <> "content-length" ->
       assoc h (headers out) = assoc h (headers res)).
Proof.
  intros Hnew (_ & Hempty & _) _.
  pose proof (constructed_code_truthy cls trace code message metadata e Hnew) as Hcode.
  exists (render e res). split; [reflexivity|].
  rewrite body_render, render_response. cbn.
  unfold or_else at 1. rewrite Hcode. unfold body. rewrite Hempty. cbn [app fold_right].
  split; [done|]. split; [done|]. split; [done|]. split; [done|].
  split; [by rewrite assoc_set_prop_ne, assoc_set_prop_eq|].
  split; [apply assoc_set_prop_eq|].
  intros h Htype Hlength. by rewrite !assoc_set_prop_ne.
Qed.


(** X6.  Of an error that is not an [HTTPError] the handler uses the
    [code] and the [message] and nothing else: two values that agree on
    these two properties get the same response, whatever their stack or
    other properties, and whatever the stack at the time of the call. *)
Theorem handler_reads_code_and_message_only trace trace' v v' res :
  get_prop v "code" = get_prop v' "code" ->
  get_prop v "message" = get_prop v' "message" ->
  handler trace (Foreign v) res = handler trace' (Foreign v') res.
Proof.
  intros Hc Hm. rewrite !handler_foreign, Hc, Hm.
  destruct (get_prop v' "code") as [c|]; [|reflexivity]. cbn [mbind option_bind].
  destruct (get_prop v' "message") as [m|]; [|reflexivity]. cbn [mbind option_bind].
  unfold Errors.new_HTTPError, Errors.construct.
  destruct (table_get _ _); reflexivity.
Qed.



End ErrorsMore.

Lemma STATUS_CODES_entries_witness :
  exists c p, (c, p) ∈ Errors.http_STATUS_CODES /\
    ("NOT_FOUND" = ToString (num c) /\ num 404 = VStr p \/
     "NOT_FOUND" = Errors.reverse_name p /\ num 404 = num c).
Proof.
  apply (STATUS_CODES_entries Sample.StringToNumber Sample.ObjectToNumber
           "NOT_FOUND" (num 404)).
  vm_compute. reflexivity.
Defined.

Lemma constructed_error_is_complete_witness :
  ToBoolean (num 500) = true /\
  "InternalServerError" <> "" /\
  (forall a, includes a "InternalServerError" = true ->
             Errors.M_REJECT_CHARS_keeps a = true) /\
  ToBoolean (VStr "Internal Server Error") = true /\
  ToBoolean (VObj []) = true.
Proof.
  apply (constructed_error_is_complete Sample.StringToNumber Sample.ObjectToNumber
           Errors.HTTPError_class "" VUndefined VUndefined VUndefined
           (Errors.mkHTTPError Errors.HTTPError_class (num 500)
              "InternalServerError" (VStr "Internal Server Error") (VObj []) "")).
  vm_compute. reflexivity.
Defined.

Lemma handler_answers_constructed_witness :
  exists out,
    Errors.handler Sample.StringToNumber Sample.ObjectToNumber Sample.JSON_stringify
      "at handler"
      (Errors.Instance
         (Errors.mkHTTPError Errors.HTTPError_class (num 500)
            "InternalServerError" (VStr "Internal Server Error") (VObj []) ""))
      Errors.fresh_response = Some out /\
    Errors.statusCode out = num 500 /\
    Errors.ended out = true /\
    Errors.chunks out = [utf8 "{}"] /\
    Errors.body out = utf8 "{}" /\
    assoc "content-type" (Errors.headers out) = Some (VStr "application/json") /\
    assoc "content-length" (Errors.headers out)
    = Some (num (Z.of_nat (String.length (Errors.body out)))) /\
    (forall h, h <> "content-type" -> h <> "content-length" ->
       assoc h (Errors.headers out) = assoc h (Errors.headers Errors.fresh_response)).
Proof.
  apply (handler_answers_constructed Sample.StringToNumber Sample.ObjectToNumber
           Sample.JSON_stringify Errors.HTTPError_class "" "at handler"
           VUndefined VUndefined VUndefined
           (Errors.mkHTTPError Errors.HTTPError_class (num 500)
              "InternalServerError" (VStr "Internal Server Error") (VObj []) "")
           Errors.fresh_response).
  - vm_compute. reflexivity.
  - repeat split.
  - reflexivity.
Defined.

Lemma handler_reads_code_and_message_only_witness :
  Errors.handler Sample.StringToNumber Sample.ObjectToNumber Sample.JSON_stringify
    "at handler"
    (Errors.Foreign (VObj [ ("code", num 404); ("message", VStr "gone");
                            ("stack", VStr "Error: gone at lookup") ]))
    Errors.fresh_response
  = Errors.handler Sample.StringToNumber Sample.ObjectToNumber Sample.JSON_stringify
      "elsewhere"
      (Errors.Foreign (VObj [ ("message", VStr "gone"); ("code", num 404) ]))
      Errors.fresh_response.
Proof.
  apply (handler_reads_code_and_message_only Sample.StringToNumber
           Sample.ObjectToNumber Sample.JSON_stringify); reflexivity.
Defined.



(** ** More on the reference client *)

Lemma base64_digit_known n :
  includes (base64_digit n) (base64_alphabet +:+ "=") = true.
Proof.
  unfold base64_digit. generalize (N.to_nat n) as m. intros m.
  do 64 (destruct m as [|m]; [reflexivity|]). reflexivity.
Qed.

Lemma includes_eqb a b s :
  includes a s = false -> includes b s = true -> Ascii.eqb a b = false.
Proof.
  intros Ha Hb. destruct (Ascii.eqb a b) eqn:Heq; [|reflexivity].
  apply Ascii.eqb_eq in Heq as ->. by rewrite Ha in Hb.
Qed.

(** Base64 text is made of the sixty-four digits and the padding sign,
    and comes in groups of four characters. *)
Lemma base64_alphabet_only a bytes :
  includes a (base64_alphabet +:+ "=") = false -> includes a (base64 bytes) = false.
Proof.
  intros Ha.
  assert (forall n, Ascii.eqb a (base64_digit n) = false) as Hdigit.
  { intros n. apply (includes_eqb _ _ _ Ha), base64_digit_known. }
  assert (Ascii.eqb a "=" = false) as Hpad.
  { by apply (includes_eqb _ _ _ Ha). }
  assert (forall n s, (String.length s <= n)%nat -> includes a (base64 s) = false)
    as Hall; [|by apply (Hall (String.length bytes))].
  induction n as [|n IH]; intros s Hlen.
  - destruct s; [reflexivity|cbn in Hlen; lia].
  - destruct s as [|x [|y [|z rest]]]; [reflexivity|..].
    + cbn [base64 includes]. by rewrite !Hdigit, !Hpad.
    + cbn [base64 includes]. by rewrite !Hdigit, !Hpad.
    + cbn [base64 includes]. rewrite !Hdigit. cbn [orb].
      apply IH. cbn in Hlen. lia.
Qed.

Lemma base64_groups_of_four bytes :
  exists k, String.length (base64 bytes) = (4 * k)%nat.
Proof.
  assert (forall n s, (String.length s <= n)%nat ->
                      exists k, String.length (base64 s) = (4 * k)%nat)
    as Hall; [|by apply (Hall (String.length bytes))].
  induction n as [|n IH]; intros s Hlen.
  - destruct s; [by exists 0%nat|cbn in Hlen; lia].
  - destruct s as [|x [|y [|z rest]]].
    + by exists 0%nat.
    + by exists 1%nat.
    + by exists 1%nat.
    + destruct (IH rest) as [k Hk]; [cbn in Hlen; lia|].
      exists (S k). cbn [base64 String.length]. rewrite Hk. lia.
Qed.

Section ClientMore.
Import Tester.

Variable LocalTZA : Z -> bool -> Z.
Variable Date_toString : Z -> string.
Variable process_version : string.
Variable stdin : string.
Variable readFile : string -> option string.
Variable Crypto_hash : string -> option (string -> string).
Variable Signature_sign : string -> params -> string -> string.
Variable writeFile : jsval -> string -> bool.

Abbreviation read := (Tester.read stdin readFile).
Abbreviation request := (Tester.request stdin readFile Crypto_hash Signature_sign).
Abbreviation main :=
  (Tester.main LocalTZA Date_toString process_version stdin readFile
     Crypto_hash Signature_sign).
Abbreviation deliver := (Tester.deliver writeFile).

Lemma read_plain a s :
  a <> "-"%char -> a <> "@"%char ->
  read (VStr (String a s)) = Some (Buffer (utf8 (String a s))).
Proof.
  intros Hdash Hat.
  destruct a as [[] [] [] [] [] [] [] []]; try reflexivity;
    [by destruct Hat|by destruct Hdash].
Qed.

Lemma read_string s b : read (VStr s) = Some b -> exists bytes, b = Buffer bytes.
Proof.
  destruct s as [|a s]; [intros [= <-]; by eexists|].
  destruct (decide (a = "-"%char)) as [->|Hdash]; [intros [= <-]; by eexists|].
  destruct (decide (a = "@"%char)) as [->|Hat].
  - cbn. destruct (readFile s); [intros [= <-]; by eexists|discriminate].
  - rewrite (read_plain a s Hdash Hat). intros [= <-]. by eexists.
Qed.

(** X9.  Reading the payload fails in one case only: the argument starts
    with [@] and the file it names cannot be read.  Nothing is sent
    then. *)
Theorem read_rejects_iff p opts q :
  (read p = None <->
   exists file, p = VStr (String "@" file) /\ readFile file = None) /\
  (read (opt_payload opts) = None -> request opts q = None).
Proof.
  split; [split|].
  - destruct p as [| | | |s|]; try discriminate.
    destruct s as [|a s]; [discriminate|].
    destruct (decide (a = "-"%char)) as [->|Hdash]; [discriminate|].
    destruct (decide (a = "@"%char)) as [->|Hat].
    + cbn. destruct (readFile s) eqn:Hfile; [discriminate|]. intros _. by exists s.
    + by rewrite (read_plain a s Hdash Hat).
  - intros (file & -> & Hfile). cbn. by rewrite Hfile.
  - intros Hread. unfold Tester.request. by rewrite Hread.
Qed.

(** X10.  On every request that goes out, the content length is the
    number of bytes written as the body, zero when nothing is written;
    and nothing is written exactly when the payload option is not a
    string, so that an empty string still sends an empty body. *)
Theorem body_and_length_agree opts p out :
  request opts p = Some out ->
  content_length out = Z.of_nat (String.length (default "" (written out))) /\
  (written out = None <-> forall s, opt_payload opts <> VStr s) /\
  (forall s, opt_payload opts = VStr s -> exists bytes, written out = Some bytes).
Proof.
  intros Hreq.
  destruct (request_inv stdin readFile Crypto_hash Signature_sign opts p out Hreq)
    as (b & H & Hread & _ & ->).
  unfold send, authorize, with_digest, set_header, set_payload; cbn.
  destruct b as [|bytes]; cbn.
  - split; [done|]. split.
    + split; [|done]. intros _ s Hs. rewrite Hs in Hread.
      apply read_string in Hread as [bytes Hbytes]. discriminate Hbytes.
    + intros s Hs. rewrite Hs in Hread.
      apply read_string in Hread as [bytes Hbytes]. discriminate Hbytes.
  - split; [done|]. split.
    + split; [discriminate|]. intros Hnot.
      destruct (opt_payload opts) as [| | | |s|] eqn:Hp; try discriminate Hread.
      by destruct (Hnot s).
    + intros s _. by eexists.
Qed.

(** X11.  Signing leaves the request as it was prepared: method, target,
    date and identity are unchanged, and so is every header other than
    [digest] and [authorization]. *)
Theorem request_only_adds_two_headers opts p out :
  request opts p = Some out ->
  method (sent out) = method p /\
  slashes (sent out) = slashes p /\
  hostname (sent out) = hostname p /\
  port (sent out) = port p /\
  path (sent out) = path p /\
  date (sent out) = date p /\
  identity (sent out) = identity p /\
  forall k, k <> "digest" -> k <> "authorization" ->
            assoc k (headers (sent out)) = assoc k (headers p).
Proof.
  intros Hreq.
  destruct (request_inv stdin readFile Crypto_hash Signature_sign opts p out Hreq)
    as (b & H & _ & _ & ->).
  repeat (split; [reflexivity|]).
  intros k Hdigest Hauth. unfold send; cbn [sent].
  rewrite headers_authorize, headers_with_digest.
  apply String.eqb_neq in Hdigest, Hauth. by rewrite Hdigest, Hauth.
Qed.

(** X12.  At a clock reading where the zone offset is a whole number
    of seconds and the host converts the cleared local time back with
    that same offset, the date that is signed is the clock reading
    rounded down to the second: never later than the reading, less than
    one second earlier, with no milliseconds.  The comment says rounding
    to the nearest second; the code rounds down. *)
Theorem signed_date_is_not_in_the_future now url opts out :
  main now url opts = Some out ->
  unambiguous LocalTZA now ->
  date (sent out) = 1000 * (now / 1000) /\
  date (sent out) <= now < date (sent out) + 1000 /\
  date (sent out) mod 1000 = 0.
Proof.
  intros Hmain Hzone.
  destruct (request_inv stdin readFile Crypto_hash Signature_sign opts _ out Hmain)
    as (b & H & _ & _ & ->).
  change (date (sent (send (authorize Signature_sign (opt_secret opts)
            (with_digest (opt_digest opts) (base64 (H (payload_bytes b)))
               (set_payload b
                  (Tester.prepare LocalTZA Date_toString process_version
                     now url opts)))))))
    with (Tester.setMilliseconds LocalTZA now 0).
  rewrite setMilliseconds_zero by exact Hzone.
  split; [reflexivity|]. clear. Z.to_euclidean_division_equations. lia.
Qed.

(** X13.  The credentials that follow the scheme in the [authorization]
    header are base64 text: only the sixty-four base64 digits and the
    padding sign occur in them, so no space and no colon, and their
    length is a multiple of four. *)
Theorem credentials_are_base64 opts p out :
  request opts p = Some out ->
  exists credentials,
    assoc "authorization" (headers (sent out))
    = Some (VStr ("Rapid7-HMAC-V1-SHA256 " +:+ credentials)) /\
    (forall a, includes a credentials = true ->
               includes a (base64_alphabet +:+ "=") = true) /\
    includes " " credentials = false /\
    includes ":" credentials = false /\
    exists k, String.length credentials = (4 * k)%nat.
Proof.
  intros Hreq.
  destruct (request_inv stdin readFile Crypto_hash Signature_sign opts p out Hreq)
    as (b & H & _ & _ & ->).
  eexists. unfold send; cbn [sent]. rewrite headers_authorize. cbn [String.eqb Ascii.eqb Bool.eqb].
  split; [reflexivity|]. split; [|split; [|split]].
  - intros a Hin. destruct (includes a (base64_alphabet +:+ "=")) eqn:Ha; [done|].
    by rewrite (base64_alphabet_only a _ Ha) in Hin.
  - by apply base64_alphabet_only.
  - by apply base64_alphabet_only.
  - apply base64_groups_of_four.
Qed.

(** X14.  The response payload is written to one place at most: to
    standard output when no output file is asked for, to the file
    otherwise, and then only when it is not empty.  With an output file
    and an empty payload nothing is written and the promise is never
    settled; when the write fails nothing else changes. *)
Theorem deliver_writes_once output received w w' s :
  deliver output received w = (w', s) ->
  (s = Pending <-> ToBoolean output = true /\ received = "") /\
  (s = Resolved ->
   ToBoolean output = false /\
     stdout w' = (stdout w ++ [received])%list /\ files w' = files w
   \/
   ToBoolean output = true /\ received <> "" /\
     stdout w' = stdout w /\ files w' = (files w ++ [(output, received)])%list) /\
  (s <> Resolved -> w' = w).
Proof.
  unfold Tester.deliver.
  destruct (ToBoolean output) eqn:Hout; cbn [negb].
  - destruct received as [|a received].
    + cbn. intros [= <- <-]. split; [done|]. split; [discriminate|done].
    + change (0 <? Z.of_nat (String.length (String a received)))
        with (0 <? Z.of_nat (S (String.length received))).
      assert ((0 <? Z.of_nat (S (String.length received))) = true) as ->
        by (apply Z.ltb_lt; lia).
      destruct (writeFile output (String a received)).
      * intros [= <- <-]. split; [split; [discriminate|by intros [_ ?]]|].
        split; [|done]. intros _. right. done.
      * intros [= <- <-]. split; [split; [discriminate|by intros [_ ?]]|].
        split; [discriminate|done].
  - intros [= <- <-]. split; [split; [discriminate|by intros [? _]]|].
    split; [|done]. intros _. left. done.
Qed.

End ClientMore.

Lemma read_rejects_iff_witness :
  Tester.read "" Sample.readFile (VStr "@missing.json") = None /\
  Tester.request "" Sample.readFile Sample.Crypto_hash Sample.Signature_sign
    (Tester.mkOptions "POST" (VStr "@missing.json") "sha256" "a" "s3cret")
    Sample.signed_at_1234567 = None.
Proof.
  destruct (read_rejects_iff "" Sample.readFile Sample.Crypto_hash Sample.Signature_sign
              (VStr "@missing.json")
              (Tester.mkOptions "POST" (VStr "@missing.json") "sha256" "a" "s3cret")
              Sample.signed_at_1234567) as [Hiff Hnone].
  split.
  - apply Hiff. exists "missing.json". split; reflexivity.
  - apply Hnone. reflexivity.
Defined.

Lemma body_and_length_agree_witness :
  Tester.content_length Sample.sent_at_1234567
  = Z.of_nat (String.length (default "" (Tester.written Sample.sent_at_1234567))) /\
  (Tester.written Sample.sent_at_1234567 = None <->
   forall s, Tester.opt_payload Sample.opts <> VStr s) /\
  (forall s, Tester.opt_payload Sample.opts = VStr s ->
             exists bytes, Tester.written Sample.sent_at_1234567 = Some bytes).
Proof.
  apply (body_and_length_agree "" Sample.readFile Sample.Crypto_hash
           Sample.Signature_sign Sample.opts
           (Tester.prepare Sample.LocalTZA Sample.Date_toString "v4.4.0" 1234567 Sample.url Sample.opts)).
  vm_compute. reflexivity.
Defined.

Lemma request_only_adds_two_headers_witness :
  Tester.method (Tester.sent Sample.sent_at_1234567) = "GET" /\
  Tester.slashes (Tester.sent Sample.sent_at_1234567) = VBool true /\
  Tester.hostname (Tester.sent Sample.sent_at_1234567) = VStr "localhost" /\
  Tester.port (Tester.sent Sample.sent_at_1234567) = VStr "9300" /\
  Tester.path (Tester.sent Sample.sent_at_1234567) = VStr "/widgets" /\
  Tester.date (Tester.sent Sample.sent_at_1234567) = 1234000 /\
  Tester.identity (Tester.sent Sample.sent_at_1234567) = "a" /\
  forall k, k <> "digest" -> k <> "authorization" ->
    assoc k (Tester.headers (Tester.sent Sample.sent_at_1234567))
    = assoc k [ ("date", VStr "1234567"); ("host", VStr "localhost:9300");
                ("user-agent", VStr "node-v4.4.0/turnstile-tester") ].
Proof.
  apply (request_only_adds_two_headers "" Sample.readFile Sample.Crypto_hash
           Sample.Signature_sign Sample.opts
           (Tester.prepare Sample.LocalTZA Sample.Date_toString "v4.4.0" 1234567 Sample.url Sample.opts)).
  vm_compute. reflexivity.
Defined.

Lemma signed_date_is_not_in_the_future_witness :
  Tester.date (Tester.sent Sample.sent_at_1234567) = 1000 * (1234567 / 1000) /\
  Tester.date (Tester.sent Sample.sent_at_1234567) <= 1234567
    < Tester.date (Tester.sent Sample.sent_at_1234567) + 1000 /\
  Tester.date (Tester.sent Sample.sent_at_1234567) mod 1000 = 0.
Proof.
  apply (signed_date_is_not_in_the_future Sample.LocalTZA Sample.Date_toString
           "v4.4.0" "" Sample.readFile Sample.Crypto_hash Sample.Signature_sign
           1234567 Sample.url Sample.opts).
  - vm_compute. reflexivity.
  - split; reflexivity.
Defined.

Lemma credentials_are_base64_witness :
  exists credentials,
    assoc "authorization" (Tester.headers (Tester.sent Sample.sent_at_1234567))
    = Some (VStr ("Rapid7-HMAC-V1-SHA256 " +:+ credentials)) /\
    (forall a, includes a credentials = true ->
               includes a (base64_alphabet +:+ "=") = true) /\
    includes " " credentials = false /\
    includes ":" credentials = false /\
    exists k, String.length credentials = (4 * k)%nat.
Proof.
  apply (credentials_are_base64 "" Sample.readFile Sample.Crypto_hash
           Sample.Signature_sign Sample.opts
           (Tester.prepare Sample.LocalTZA Sample.Date_toString "v4.4.0" 1234567 Sample.url Sample.opts)).
  vm_compute. reflexivity.
Defined.

Lemma deliver_writes_once_witness :
  (Tester.Pending = Tester.Pending <-> ToBoolean (VStr "out.json") = true /\ "" = "") /\
  (Tester.Pending = Tester.Resolved ->
   ToBoolean (VStr "out.json") = false /\
     Tester.stdout (Tester.mkWorld [] [] []) = ([] ++ [""])%list /\
     Tester.files (Tester.mkWorld [] [] []) = []
   \/
   ToBoolean (VStr "out.json") = true /\ "" <> "" /\
     Tester.stdout (Tester.mkWorld [] [] []) = [] /\
     Tester.files (Tester.mkWorld [] [] []) = ([] ++ [(VStr "out.json", "")])%list) /\
  (Tester.Pending <> Tester.Resolved ->
   Tester.mkWorld [] [] [] = Tester.mkWorld [] [] []).
Proof.
  apply (deliver_writes_once (fun _ _ => true) (VStr "out.json") ""
           (Tester.mkWorld [] [] [])).
  reflexivity.
Defined.

(** ** The testing stubs *)

Section StubFacts.
Import Stub.

Variable utf8_decode : string -> string.
Variable byteLength_other : jsval -> option jsval.
Variable fixture_listener : string -> jsval -> listener.
Variable StringToNumber : string -> jsnum.
Variable ObjectToNumber : list (string * jsval) -> jsnum.
Variable JSON_stringify : jsval -> string.

Abbreviation end_ := (Stub.end_ utf8_decode).
Abbreviation IncomingMessage := (Stub.IncomingMessage byteLength_other).
Abbreviation rendered_on := (Stub.rendered_on utf8_decode).
Abbreviation handle := (Stub.handle fixture_listener).
Abbreviation on_request := (Stub.on_request utf8_decode byteLength_other).



Lemma stub_body_after_writes cs (res : ServerResponse) :
  chunks (fold_left (fun r c => write c r) cs res) = (chunks res ++ cs)%list /\
  ended (fold_left (fun r c => write c r) cs res) = ended res /\
  handled (fold_left (fun r c => write c r) cs res) = handled res /\
  body (fold_left (fun r c => write c r) cs res) = body res.
Proof.
  revert res. induction cs as [|c cs IH]; intros res; cbn.
  - by rewrite app_nil_r.
  - destruct (IH (write c res)) as (-> & -> & -> & ->). cbn.
    by rewrite <- app_assoc.
Qed.

(** X17.  When the stub response is ended, its body is the decoded
    concatenation of every chunk written so far, in the order of the
    writes, followed by the chunk given to [end] if there is one; the
    handler is called once more; and a chunk written after the end is
    stored but no longer shows in the body. *)
Theorem stub_body_is_all_chunks cs last late res :
  let final := end_ last (fold_left (fun r c => write c r) cs res) in
  body final
  = Some (utf8_decode
            (fold_right String.append ""
               (chunks res ++ cs ++ match last with Some c => [c] | None => [] end))) /\
  ended final = true /\
  handled final = S (handled res) /\
  body (write late final) = body final /\
  chunks (write late final) = (chunks final ++ [late])%list.
Proof.
  destruct (stub_body_after_writes cs res) as (Hchunks & _ & Hhandled & _).
  cbn. rewrite Hchunks, Hhandled.
  destruct last as [c|]; cbn; by rewrite ?app_assoc, ?app_nil_r.
Qed.

(** X18.  The calls [HTTPError.handler] makes on a response have the same
    effect on the stub as on the runtime's response: from a stub that
    shows the same headers, status, chunks and end, rendering succeeds and
    the two still agree; the stub's body is the decoded body, and its
    handler has been called once more. *)
Theorem stub_follows_render e (s : ServerResponse) (r : Errors.ServerResponse) :
  agrees s r ->
  let r' := Errors.render StringToNumber ObjectToNumber JSON_stringify e r in
  exists s',
    rendered_on (Errors.statusCode r') (utf8 (JSON_stringify (Errors.toJSON e))) s
    = Some s' /\
    agrees s' r' /\
    body s' = Some (utf8_decode (Errors.body r')) /\
    handled s' = S (handled s).
Proof.
  intros (Hheaders & Hstatus & Hchunks & Hended). cbn zeta.
  unfold Stub.rendered_on, setHeader. rewrite Hheaders. cbn [mbind option_bind headers].
  eexists. split; [reflexivity|].
  unfold Errors.render, agrees. cbn. rewrite Hchunks. done.
Qed.

(** X19.  Registering a function with the stub server returns the path
    made of a slash and the random name; a request for that path is then
    answered by the function, given the decoded body, and requests for
    other paths are answered as before.  A handler that is neither a
    function nor an object gets a path too, but nothing is registered. *)
Theorem handle_then_request random f v handlers req received res :
  let path := "/" +:+ random in
  fst (handle random (IsFunction f) handlers) = path /\
  (req_url req = path ->
   on_request (snd (handle random (IsFunction f) handlers)) req received res
   = f {| req_method := req_method req; req_url := req_url req;
          req_headers := req_headers req;
          req_body := Some (utf8_decode (fold_right String.append "" received)) |}
       res) /\
  (req_url req <> path ->
   on_request (snd (handle random (IsFunction f) handlers)) req received res
   = on_request handlers req received res) /\
  handle random (IsOther v) handlers = (path, handlers).
Proof.
  cbn zeta. split; [reflexivity|]. split; [|split; [|reflexivity]].
  - intros Hurl. unfold Stub.on_request, Stub.handle. cbn [snd req_url].
    by rewrite Hurl, lookup_insert_eq.
  - intros Hurl. unfold Stub.on_request, Stub.handle. cbn [snd req_url].
    by rewrite lookup_insert_ne.
Qed.

(** X20.  A request for a path that has no handler is answered with
    status 404, the plain-text body [Not Found] after whatever had
    already been written, and a content length of 9, the body's byte
    length. *)
Theorem unhandled_request_is_not_found handlers req received res :
  handlers !! req_url req = None ->
  exists out,
    on_request handlers req received res = Some out /\
    Errors.statusCode out = num 404 /\
    Errors.ended out = true /\
    Errors.body out = Errors.body res +:+ "Not Found" /\
    assoc "content-type" (Errors.headers out) = Some (VStr "text/plain") /\
    assoc "content-length" (Errors.headers out)
    = Some (num (Z.of_nat (String.length "Not Found"))).
Proof.
  intros Hnone. unfold Stub.on_request, listener in *. cbn [req_url]. rewrite Hnone.
  cbn [byteLength mbind option_bind]. eexists. split; [reflexivity|].
  split; [reflexivity|]. split; [reflexivity|]. split.
  - exact (body_after_write (utf8 "Not Found")
             (writeHead_with (num 404)
                [ ("content-type", VStr "text/plain");
                  ("content-length", num (Z.of_nat (String.length (utf8 "Not Found")))) ]
                res)).
  - cbn. split.
    + by rewrite assoc_set_prop_ne, assoc_set_prop_eq.
    + by rewrite assoc_set_prop_eq.
Qed.

End StubFacts.



Lemma stub_follows_render_witness :
  let e := Errors.mkHTTPError Errors.HTTPError_class (num 404) "NotFound"
             (VStr "GET /x") (VObj []) "" in
  let r' := Errors.render Sample.StringToNumber Sample.ObjectToNumber
              Sample.JSON_stringify e Errors.fresh_response in
  exists s',
    Stub.rendered_on (fun s => s) (Errors.statusCode r')
      (utf8 (Sample.JSON_stringify (Errors.toJSON e))) Stub.new_ServerResponse
    = Some s' /\
    Stub.agrees s' r' /\
    Stub.body s' = Some (Errors.body r') /\
    Stub.handled s' = S (Stub.handled Stub.new_ServerResponse).
Proof.
  cbn zeta.
  apply (stub_follows_render (fun s => s) Sample.StringToNumber Sample.ObjectToNumber
           Sample.JSON_stringify _ Stub.new_ServerResponse Errors.fresh_response).
  repeat split.
Defined.

Lemma handle_then_request_witness :
  let f : Stub.listener := fun _ r => Some (Errors.writeHead (num 204) r) in
  let req := Stub.mkRequest "GET" "/ab12" [] None in
  fst (Stub.handle (fun _ _ _ r => Some r) "ab12" (Stub.IsFunction f) ∅) = "/ab12" /\
  Stub.on_request (fun s => s) (fun _ => None)
    (snd (Stub.handle (fun _ _ _ r => Some r) "ab12" (Stub.IsFunction f) ∅))
    req [] Errors.fresh_response
  = f (Stub.mkRequest "GET" "/ab12" [] (Some "")) Errors.fresh_response /\
  Stub.on_request (fun s => s) (fun _ => None)
    (snd (Stub.handle (fun _ _ _ r => Some r) "ab12" (Stub.IsFunction f) ∅))
    (Stub.mkRequest "GET" "/other" [] None) [] Errors.fresh_response
  = Stub.on_request (fun s => s) (fun _ => None) ∅
      (Stub.mkRequest "GET" "/other" [] None) [] Errors.fresh_response.
Proof.
  cbn zeta.
  destruct (handle_then_request (fun s => s) (fun _ => None) (fun _ _ _ r => Some r)
              "ab12" (fun _ r => Some (Errors.writeHead (num 204) r)) VNull ∅
              (Stub.mkRequest "GET" "/ab12" [] None) [] Errors.fresh_response)
    as (Hpath & Hhit & _ & _).
  destruct (handle_then_request (fun s => s) (fun _ => None) (fun _ _ _ r => Some r)
              "ab12" (fun _ r => Some (Errors.writeHead (num 204) r)) VNull ∅
              (Stub.mkRequest "GET" "/other" [] None) [] Errors.fresh_response)
    as (_ & _ & Hmiss & _).
  split; [exact Hpath|]. split.
  - apply Hhit. reflexivity.
  - apply Hmiss. discriminate.
Defined.

Lemma unhandled_request_is_not_found_witness :
  exists out,
    Stub.on_request (fun s => s) (fun _ => None) ∅
      (Stub.mkRequest "GET" "/nowhere" [] None) [] Errors.fresh_response = Some out /\
    Errors.statusCode out = num 404 /\
    Errors.ended out = true /\
    Errors.body out = Errors.body Errors.fresh_response +:+ "Not Found" /\
    assoc "content-type" (Errors.headers out) = Some (VStr "text/plain") /\
    assoc "content-length" (Errors.headers out)
    = Some (num (Z.of_nat (String.length "Not Found"))).
Proof.
  apply (unhandled_request_is_not_found (fun s => s) (fun _ => None) ∅
           (Stub.mkRequest "GET" "/nowhere" [] None) [] Errors.fresh_response).
  reflexivity.
Defined.

